(** * ELDQM hazard-assessment engine: a shallow embedding of the calculation core

    The development follows the TypeScript sources of the engine:
    the chemical table ([chemicalDatabase]), the unit converter
    ([convertConcentrationUnit]), the mass balance ([calculateMassBalance]),
    the blast assessment ([assessBlastPotential]), the leak detector
    ([detectLeakage]), the stability classifier ([calculateStabilityClass])
    and the zone calculation ([calculateDispersion]); then the weather impact
    ([calculateWeatherImpact]), the health impact ([calculateHealthImpact]),
    the dispersion coefficients ([calculateSigmaY], [calculateSigmaZ]), the
    detailed results ([calculateDetailedDispersion] with
    [calculateLeakDetection] and [generateConcentrationProfile]), the
    simulated detection ([simulateLeakDetection]) and the protective actions
    ([evaluateProtectiveActions]).

    Numbers.  A JavaScript [number] is modelled by [num]: a real number, one
    of the two infinities, or NaN.  Finite arithmetic is exact (the rounding
    of IEEE-754 doubles and the sign of zero are abstracted away), the special
    values follow IEEE-754.  An [undefined] that reaches an arithmetic
    operator, a comparison, [===] against a number or the left of [||] behaves
    there exactly as NaN does, and is represented by [NaN]. *)

From Stdlib Require Import Reals Lra Psatz ZArith String Ascii List Bool.
Import ListNotations.

Local Open Scope R_scope.

(** ** Numbers *)

Inductive num : Type :=
| Fin (r : R)
| PInf
| NInf
| NaN.

Declare Scope num_scope.
Delimit Scope num_scope with num.
Bind Scope num_scope with num.

Definition Rltb (a b : R) : bool := if Rlt_dec a b then true else false.
Definition Rleb (a b : R) : bool := if Rle_dec a b then true else false.
Definition Reqb (a b : R) : bool := if Req_dec_T a b then true else false.

Definition nopp (x : num) : num :=
  match x with
  | Fin a => Fin (- a)
  | PInf => NInf
  | NInf => PInf
  | NaN => NaN
  end.

Definition nadd (x y : num) : num :=
  match x, y with
  | Fin a, Fin b => Fin (a + b)
  | NaN, _ | _, NaN => NaN
  | PInf, NInf | NInf, PInf => NaN
  | PInf, _ | _, PInf => PInf
  | NInf, _ | _, NInf => NInf
  end.

Definition nsub (x y : num) : num := nadd x (nopp y).

(** Sign of a number known to be neither zero nor NaN, as used by the
    products and quotients that involve an infinity. *)
Definition positive (x : num) : bool :=
  match x with
  | Fin a => Rltb 0 a
  | PInf => true
  | NInf | NaN => false
  end.

Definition isZero (x : num) : bool :=
  match x with
  | Fin a => Reqb a 0
  | _ => false
  end.

Definition signedInf (pos : bool) : num := if pos then PInf else NInf.

Definition nmul (x y : num) : num :=
  match x, y with
  | Fin a, Fin b => Fin (a * b)
  | NaN, _ | _, NaN => NaN
  | _, _ =>
      if isZero x || isZero y then NaN
      else signedInf (Bool.eqb (positive x) (positive y))
  end.

Definition ndiv (x y : num) : num :=
  match x, y with
  | NaN, _ | _, NaN => NaN
  | Fin a, Fin b =>
      if Reqb b 0
      then (if Reqb a 0 then NaN else signedInf (Rltb 0 a))
      else Fin (a / b)
  | Fin _, _ => Fin 0
  | _, Fin b => signedInf (Bool.eqb (positive x) (Rleb 0 b))
  | _, _ => NaN
  end.

(** [Math.sqrt], [Math.exp], [Math.log10]. *)
Definition nsqrt (x : num) : num :=
  match x with
  | Fin a => if Rltb a 0 then NaN else Fin (sqrt a)
  | PInf => PInf
  | NInf | NaN => NaN
  end.

Definition nexp (x : num) : num :=
  match x with
  | Fin a => Fin (exp a)
  | PInf => PInf
  | NInf => Fin 0
  | NaN => NaN
  end.

Definition nlog10 (x : num) : num :=
  match x with
  | Fin a =>
      if Rltb a 0 then NaN
      else if Reqb a 0 then NInf
      else Fin (ln a / ln 10)
  | PInf => PInf
  | NInf | NaN => NaN
  end.

(** The relational operators [<], [<=], [>], [>=] and [===] on numbers:
    every comparison with NaN is false. *)
Definition nlt (x y : num) : bool :=
  match x, y with
  | Fin a, Fin b => Rltb a b
  | NaN, _ | _, NaN => false
  | NInf, NInf | PInf, _ | _, NInf => false
  | _, _ => true
  end.

Definition neq (x y : num) : bool :=
  match x, y with
  | Fin a, Fin b => Reqb a b
  | PInf, PInf | NInf, NInf => true
  | _, _ => false
  end.

Definition nle (x y : num) : bool := nlt x y || neq x y.
Definition ngt (x y : num) : bool := nlt y x.
Definition nge (x y : num) : bool := nle y x.

Definition isNaN (x : num) : bool :=
  match x with NaN => true | _ => false end.

(** [Math.min] and [Math.max] of two arguments: NaN if either is NaN. *)
Definition nmin (x y : num) : num :=
  if isNaN x || isNaN y then NaN else if nlt y x then y else x.

Definition nmax (x y : num) : num :=
  if isNaN x || isNaN y then NaN else if nlt x y then y else x.

(** Truthiness of a number, and [x || d] on numbers. *)
Definition truthy (x : num) : bool :=
  match x with
  | Fin a => negb (Reqb a 0)
  | PInf | NInf => true
  | NaN => false
  end.

Definition nor (x d : num) : num := if truthy x then x else d.

Notation "x + y" := (nadd x y) : num_scope.
Notation "x - y" := (nsub x y) : num_scope.
Notation "x * y" := (nmul x y) : num_scope.
Notation "x / y" := (ndiv x y) : num_scope.
Notation "x <? y" := (nlt x y) (at level 70) : num_scope.
Notation "x <=? y" := (nle x y) (at level 70) : num_scope.
Notation "x >? y" := (ngt x y) (at level 70) : num_scope.
Notation "x >=? y" := (nge x y) (at level 70) : num_scope.
Notation "x === y" := (neq x y) (at level 70) : num_scope.
Notation "x '|||' d" := (nor x d) (at level 50, left associativity) : num_scope.

Arguments nadd : simpl never.
Arguments nsub : simpl never.
Arguments nmul : simpl never.
Arguments ndiv : simpl never.
Arguments nsqrt : simpl never.
Arguments nexp : simpl never.
Arguments nlog10 : simpl never.
Arguments nlt : simpl never.
Arguments nle : simpl never.
Arguments ngt : simpl never.
Arguments nge : simpl never.
Arguments neq : simpl never.
Arguments nmin : simpl never.
Arguments nmax : simpl never.
Arguments nor : simpl never.

(** An optional numeric argument or property ([undefined] when absent) used
    as a condition: its value when it is truthy. *)
Definition truthyValue (o : option num) : option num :=
  match o with
  | Some x => if truthy x then Some x else None
  | None => None
  end.

(** ** Strings: [String.prototype.toLowerCase] on the ASCII letters *)

Definition lowerAscii (c : ascii) : ascii :=
  let n := nat_of_ascii c in
  if (Nat.leb 65 n && Nat.leb n 90)%bool then ascii_of_nat (n + 32) else c.

Fixpoint toLowerCase (s : string) : string :=
  match s with
  | EmptyString => EmptyString
  | String c rest => String (lowerAscii c) (toLowerCase rest)
  end.

(** ** chemicalDatabase *)

Module chemicalDatabase.

(** The numeric properties of [ChemicalProperties] read by the engine.
    [explosionEnergy], [reactivityHazard] and [blastPotential] are optional in
    the interface; every entry of the table defines them. *)
Record ChemicalProperties : Type := {
  name : string;
  molecularWeight : num;
  boilingPoint : num;
  vaporPressure : num;
  specificGravity : num;
  idlh : num;
  lel : num;
  uel : num;
  aegl1 : num;
  aegl2 : num;
  aegl3 : num;
  explosionEnergy : num;
  reactivityHazard : num;
  blastPotential : num
}.

Definition chlorine : ChemicalProperties := {|
  name := "Chlorine"; molecularWeight := Fin 70.91; boilingPoint := Fin (-34.04);
  vaporPressure := Fin 5168; specificGravity := Fin 1.41; idlh := Fin 10;
  lel := Fin 0; uel := Fin 0;
  aegl1 := Fin 0.5; aegl2 := Fin 2.0; aegl3 := Fin 20.0;
  explosionEnergy := Fin 0; reactivityHazard := Fin 3; blastPotential := Fin 1 |}.

Definition ammonia : ChemicalProperties := {|
  name := "Ammonia"; molecularWeight := Fin 17.03; boilingPoint := Fin (-33.34);
  vaporPressure := Fin 6870; specificGravity := Fin 0.682; idlh := Fin 300;
  lel := Fin 15; uel := Fin 28;
  aegl1 := Fin 30; aegl2 := Fin 160; aegl3 := Fin 1100;
  explosionEnergy := Fin 382; reactivityHazard := Fin 3; blastPotential := Fin 5 |}.

Definition hydrogenSulfide : ChemicalProperties := {|
  name := "Hydrogen Sulfide"; molecularWeight := Fin 34.08;
  boilingPoint := Fin (-60.33);
  vaporPressure := Fin 15600; specificGravity := Fin 0.92; idlh := Fin 100;
  lel := Fin 4; uel := Fin 44;
  aegl1 := Fin 0.51; aegl2 := Fin 27; aegl3 := Fin 50;
  explosionEnergy := Fin 207; reactivityHazard := Fin 3; blastPotential := Fin 6 |}.

Definition sulfurDioxide : ChemicalProperties := {|
  name := "Sulfur Dioxide"; molecularWeight := Fin 64.07;
  boilingPoint := Fin (-10.0);
  vaporPressure := Fin 2538; specificGravity := Fin 1.434; idlh := Fin 100;
  lel := Fin 0; uel := Fin 0;
  aegl1 := Fin 0.2; aegl2 := Fin 0.75; aegl3 := Fin 30;
  explosionEnergy := Fin 0; reactivityHazard := Fin 2; blastPotential := Fin 2 |}.

Definition methane : ChemicalProperties := {|
  name := "Methane"; molecularWeight := Fin 16.04; boilingPoint := Fin (-161.5);
  vaporPressure := Fin 760000; specificGravity := Fin 0.42; idlh := Fin 0;
  lel := Fin 5; uel := Fin 15;
  aegl1 := Fin 0; aegl2 := Fin 0; aegl3 := Fin 0;
  explosionEnergy := Fin 882; reactivityHazard := Fin 0; blastPotential := Fin 8 |}.

Definition carbonMonoxide : ChemicalProperties := {|
  name := "Carbon Monoxide"; molecularWeight := Fin 28.01;
  boilingPoint := Fin (-191.5);
  vaporPressure := Fin 760000; specificGravity := Fin 0.97; idlh := Fin 1200;
  lel := Fin 12.5; uel := Fin 74;
  aegl1 := Fin 0; aegl2 := Fin 83; aegl3 := Fin 330;
  explosionEnergy := Fin 283; reactivityHazard := Fin 0; blastPotential := Fin 7 |}.

Definition benzene : ChemicalProperties := {|
  name := "Benzene"; molecularWeight := Fin 78.11; boilingPoint := Fin 80.1;
  vaporPressure := Fin 75; specificGravity := Fin 0.88; idlh := Fin 500;
  lel := Fin 1.2; uel := Fin 7.8;
  aegl1 := Fin 52; aegl2 := Fin 800; aegl3 := Fin 4000;
  explosionEnergy := Fin 3300; reactivityHazard := Fin 2; blastPotential := Fin 6 |}.

Definition ethyleneOxide : ChemicalProperties := {|
  name := "Ethylene Oxide"; molecularWeight := Fin 44.05; boilingPoint := Fin 10.4;
  vaporPressure := Fin 1095; specificGravity := Fin 0.882; idlh := Fin 800;
  lel := Fin 3; uel := Fin 100;
  aegl1 := Fin 5; aegl2 := Fin 45; aegl3 := Fin 85;
  explosionEnergy := Fin 1700; reactivityHazard := Fin 4; blastPotential := Fin 9 |}.

Definition hydrogenCyanide : ChemicalProperties := {|
  name := "Hydrogen Cyanide"; molecularWeight := Fin 27.03;
  boilingPoint := Fin 25.6;
  vaporPressure := Fin 630; specificGravity := Fin 0.687; idlh := Fin 50;
  lel := Fin 5.6; uel := Fin 40;
  aegl1 := Fin 1.0; aegl2 := Fin 7.1; aegl3 := Fin 15;
  explosionEnergy := Fin 720; reactivityHazard := Fin 3; blastPotential := Fin 7 |}.

Definition phosgene : ChemicalProperties := {|
  name := "Phosgene"; molecularWeight := Fin 98.92; boilingPoint := Fin 8.3;
  vaporPressure := Fin 1173; specificGravity := Fin 1.432; idlh := Fin 2;
  lel := Fin 0; uel := Fin 0;
  aegl1 := Fin 0; aegl2 := Fin 0.2; aegl3 := Fin 0.59;
  explosionEnergy := Fin 0; reactivityHazard := Fin 3; blastPotential := Fin 3 |}.

(** The object literal: its own keys, in source order. *)
Definition chemicalDatabase : list (string * ChemicalProperties) :=
  [ ("chlorine", chlorine);
    ("ammonia", ammonia);
    ("hydrogen sulfide", hydrogenSulfide);
    ("sulfur dioxide", sulfurDioxide);
    ("methane", methane);
    ("carbon monoxide", carbonMonoxide);
    ("benzene", benzene);
    ("ethylene oxide", ethyleneOxide);
    ("hydrogen cyanide", hydrogenCyanide);
    ("phosgene", phosgene) ]%string.

Fixpoint ownProperty (key : string) (table : list (string * ChemicalProperties))
  : option ChemicalProperties :=
  match table with
  | [] => None
  | (k, v) :: rest => if String.eqb key k then Some v else ownProperty key rest
  end.

(** [chemicalDatabase] is a plain object, so [chemicalDatabase[key]] falls
    through to [Object.prototype] when [key] is not an own key.  Every key the
    engine looks up is the result of [toLowerCase]; of the property names of
    [Object.prototype] only [constructor] and [__proto__] contain no capital
    letter, the others ([toString], [valueOf], [hasOwnProperty], ...) are
    never reached. *)
Definition inheritedKey (key : string) : bool :=
  (String.eqb key "constructor" || String.eqb key "__proto__")%string.

(** What such a lookup yields: a truthy object (the function [Object], or
    [Object.prototype] itself) on which every chemical property reads as
    [undefined]. *)
Definition inheritedMember : ChemicalProperties := {|
  name := ""; molecularWeight := NaN; boilingPoint := NaN;
  vaporPressure := NaN; specificGravity := NaN; idlh := NaN;
  lel := NaN; uel := NaN;
  aegl1 := NaN; aegl2 := NaN; aegl3 := NaN;
  explosionEnergy := NaN; reactivityHazard := NaN; blastPotential := NaN |}.

(** [chemicalDatabase[key]]: [None] is [undefined]. *)
Definition get (key : string) : option ChemicalProperties :=
  match ownProperty key chemicalDatabase with
  | Some c => Some c
  | None => if inheritedKey key then Some inheritedMember else None
  end.

End chemicalDatabase.

Import chemicalDatabase.

(** ** chemicalTypes *)

Inductive RiskLevel : Type := NoRisk | Low | Moderate | High | Extreme.

Inductive ConcentrationUnit : Type := mg_m3 | ppm | percent.

Definition ConcentrationUnit_eqb (a b : ConcentrationUnit) : bool :=
  match a, b with
  | mg_m3, mg_m3 | ppm, ppm | percent, percent => true
  | _, _ => false
  end.

(** ** chemicalUtils *)

Local Open Scope num_scope.

Definition convertConcentrationUnit
  (value : num) (chemical : string) (fromUnit toUnit : ConcentrationUnit) : num :=
  if ConcentrationUnit_eqb fromUnit toUnit then value
  else
    match get (toLowerCase chemical) with
    | None => value
    | Some chemData =>
        let molecularWeight := chemData.(molecularWeight) in
        let intermediateMgM3 :=
          match fromUnit with
          | ppm => (value * molecularWeight) / Fin 24.45
          | percent => (value * Fin 10000 * molecularWeight) / Fin 24.45
          | mg_m3 => value
          end in
        match toUnit with
        | ppm => (intermediateMgM3 * Fin 24.45) / molecularWeight
        | percent => ((intermediateMgM3 * Fin 24.45) / molecularWeight) / Fin 10000
        | mg_m3 => intermediateMgM3
        end
    end.

Definition raiseRiskLevel (currentLevel : RiskLevel) : RiskLevel :=
  match currentLevel with
  | NoRisk => Low
  | Low => Moderate
  | Moderate => High
  | High => Extreme
  | Extreme => Extreme
  end.

(** ** massBalance *)

Record MassBalanceResult : Type := {
  totalReleased : num;
  massReleaseRate : num;
  vaporGenerated : num;
  vaporGenerationRate : num;
  poolFormation : num;
  poolEvaporation : num;
  poolEvaporationRate : num;
  airborneRelease : num;
  massBalance : list (string * num);
  timeToEmpty : option num;
  poolDuration : option num;
  poolArea : option num
}.

(** [pressure] has the default value 1.0; [containerVolume] and [initialMass]
    are optional. *)
Definition calculateMassBalance
  (chemical : string) (releaseRate duration temperature : num)
  (pressure containerVolume initialMass : option num) : MassBalanceResult :=
  match get (toLowerCase chemical) with
  | None =>
      {| totalReleased := Fin 0; massReleaseRate := Fin 0;
         vaporGenerated := Fin 0; vaporGenerationRate := Fin 0;
         poolFormation := Fin 0; poolEvaporation := Fin 0;
         poolEvaporationRate := Fin 0; airborneRelease := Fin 0;
         massBalance := [];
         timeToEmpty := None; poolDuration := None; poolArea := None |}
  | Some chemData =>
      let totalReleased := releaseRate * duration in
      let tempFactor := nexp (Fin 0.0555 * (temperature - Fin 20)) in
      let isGasAtAmbient := chemData.(boilingPoint) <? temperature in
      let vaporFraction :=
        if isGasAtAmbient then Fin 1.0
        else
          let vaporPressureFactor := chemData.(vaporPressure) / Fin 760 in
          let vaporFraction :=
            Fin 0.2 + (Fin 0.8 * vaporPressureFactor * tempFactor) in
          nmin (Fin 1.0) (nmax (Fin 0.1) vaporFraction) in
      let vaporGenerated := totalReleased * vaporFraction in
      let vaporGenerationRate := releaseRate * vaporFraction in
      let poolFormation :=
        if isGasAtAmbient then Fin 0
        else totalReleased * (Fin 1 - vaporFraction) in
      let poolEvaporationRate :=
        if (negb isGasAtAmbient && (poolFormation >? Fin 0))%bool then
          let vaporPressureFactor := chemData.(vaporPressure) / Fin 100 in
          let molecularWeightFactor :=
            nsqrt (Fin 18 / chemData.(molecularWeight)) in
          let poolEvaporationRate :=
            Fin 0.005 * vaporPressureFactor * molecularWeightFactor
            * tempFactor * nsqrt poolFormation in
          nmin poolEvaporationRate (poolFormation / Fin 10)
        else Fin 0 in
      let poolEvaporation := nmin poolFormation (poolEvaporationRate * duration) in
      let airborneRelease := vaporGenerated + poolEvaporation in
      let timeToEmpty :=
        match truthyValue containerVolume, truthyValue initialMass with
        | Some _, Some initialMass => Some (initialMass / releaseRate)
        | _, _ => None
        end in
      let poolArea :=
        if poolFormation >? Fin 0 then
          let liquidDensity := chemData.(specificGravity) * Fin 1000 in
          Some ((poolFormation / liquidDensity) * Fin 100)
        else None in
      let poolDuration :=
        if poolFormation >? Fin 0 then
          if poolEvaporation >? Fin 0
          then Some (poolFormation / poolEvaporationRate) else None
        else None in
      {| totalReleased := totalReleased;
         massReleaseRate := releaseRate;
         vaporGenerated := vaporGenerated;
         vaporGenerationRate := vaporGenerationRate;
         poolFormation := poolFormation;
         poolEvaporation := poolEvaporation;
         poolEvaporationRate := poolEvaporationRate;
         airborneRelease := airborneRelease;
         massBalance :=
           [ ("Initial vapor", vaporGenerated);
             ("Pool formation", poolFormation);
             ("Pool evaporation", poolEvaporation);
             ("Remaining in pool", poolFormation - poolEvaporation);
             ("Total airborne", airborneRelease) ]%string;
         timeToEmpty := timeToEmpty;
         poolDuration := poolDuration;
         poolArea := poolArea |}
  end.

(** ** blastAssessment *)

(** The sentences [assessBlastPotential] assembles into [comments], in the
    order they are appended; the flammable limits are the values the template
    strings interpolate. *)
Inductive Comment : Type :=
| ChemicalDataNotFound
| NoExplosionHazard
| WithinFlammableRange (lel uel : num)
| BelowLowerExplosiveLimit (lel : num)
| AboveUpperExplosiveLimit (uel : num)
| ElevatedTemperature
| ElevatedPressure.

Record BlastAssessmentResult : Type := {
  explosionRisk : RiskLevel;
  flammabilityRisk : RiskLevel;
  potentialOverpressure : num;
  potentialThermalRadiation : num;
  safeDistance : num;
  comments : list Comment
}.

Definition RiskLevel_eqb (a b : RiskLevel) : bool :=
  match a, b with
  | NoRisk, NoRisk | Low, Low | Moderate, Moderate
  | High, High | Extreme, Extreme => true
  | _, _ => false
  end.

Definition defaultTo (o : option num) (d : num) : num :=
  match o with Some x => x | None => d end.

Definition assessBlastPotential
  (chemical : string) (concentration temperature : num) (pressure : option num)
  : BlastAssessmentResult :=
  let pressure := defaultTo pressure (Fin 1.0) in
  match get (toLowerCase chemical) with
  | None =>
      {| explosionRisk := NoRisk; flammabilityRisk := NoRisk;
         potentialOverpressure := Fin 0; potentialThermalRadiation := Fin 0;
         safeDistance := Fin 100; comments := [ChemicalDataNotFound] |}
  | Some chemData =>
      let concentrationPercent :=
        convertConcentrationUnit concentration chemical mg_m3 percent in
      let tempFactor := Fin 1 + ((temperature - Fin 20) / Fin 100) in
      let pressureFactor := pressure / Fin 1.0 in
      let isFlammable :=
        ((chemData.(lel) >? Fin 0)
         && (concentrationPercent >=? chemData.(lel))
         && (concentrationPercent <=? chemData.(uel)))%bool in
      let nonFlammable :=
        ((chemData.(lel) === Fin 0) && (chemData.(uel) === Fin 0))%bool in
      let flammabilityRisk :=
        if nonFlammable then NoRisk
        else if concentrationPercent <? chemData.(lel) * Fin 0.1 then Low
        else if concentrationPercent <? chemData.(lel) * Fin 0.5 then Moderate
        else if concentrationPercent <? chemData.(lel) then High
        else if isFlammable then Extreme
        else if concentrationPercent >? chemData.(uel) then Moderate
        else NoRisk in
      let explosionRisk :=
        if nonFlammable then NoRisk
        else if ((chemData.(reactivityHazard) >=? Fin 3)
                 || (chemData.(blastPotential) >=? Fin 7))%bool then
          match flammabilityRisk with
          | Extreme => Extreme
          | High => High
          | Moderate => Moderate
          | _ => Low
          end
        else if isFlammable then High
        else if concentrationPercent >=? chemData.(lel) * Fin 0.5 then Moderate
        else if concentrationPercent >=? chemData.(lel) * Fin 0.1 then Low
        else NoRisk in
      let explosionRisk :=
        if negb (RiskLevel_eqb explosionRisk NoRisk) then
          let explosionRisk :=
            if ((temperature >? Fin 50) && (pressureFactor >? Fin 1.2))%bool
            then raiseRiskLevel explosionRisk else explosionRisk in
          if ((temperature >? Fin 100) || (pressureFactor >? Fin 2))%bool
          then raiseRiskLevel explosionRisk else explosionRisk
        else explosionRisk in
      let energy := chemData.(explosionEnergy) ||| Fin 300 in
      let potentialOverpressure :=
        match explosionRisk with
        | Extreme => Fin 10 * tempFactor * pressureFactor * energy / Fin 300
        | High => Fin 5 * tempFactor * pressureFactor * energy / Fin 300
        | Moderate => Fin 2 * tempFactor * pressureFactor * energy / Fin 300
        | Low => Fin 0.5 * tempFactor * pressureFactor * energy / Fin 300
        | NoRisk => Fin 0
        end in
      let potentialThermalRadiation :=
        match flammabilityRisk with
        | Extreme => Fin 25 * tempFactor * energy / Fin 300
        | High => Fin 10 * tempFactor * energy / Fin 300
        | Moderate => Fin 5 * tempFactor * energy / Fin 300
        | Low => Fin 1 * tempFactor * energy / Fin 300
        | NoRisk => Fin 0
        end in
      let safeDistance :=
        match explosionRisk with
        | Extreme => Fin 1000 * nsqrt (potentialOverpressure / Fin 10)
        | High => Fin 500 * nsqrt (potentialOverpressure / Fin 5)
        | Moderate => Fin 250 * nsqrt (potentialOverpressure / Fin 2)
        | Low => Fin 100 * nsqrt (potentialOverpressure / Fin 0.5)
        | NoRisk => Fin 100
        end in
      let comments :=
        if RiskLevel_eqb explosionRisk NoRisk then [NoExplosionHazard]
        else if isFlammable
        then [WithinFlammableRange chemData.(lel) chemData.(uel)]
        else if concentrationPercent <? chemData.(lel)
        then [BelowLowerExplosiveLimit chemData.(lel)]
        else if concentrationPercent >? chemData.(uel)
        then [AboveUpperExplosiveLimit chemData.(uel)]
        else [] in
      let comments :=
        if temperature >? Fin 50 then comments ++ [ElevatedTemperature]
        else comments in
      let comments :=
        if pressure >? Fin 1.2 then comments ++ [ElevatedPressure]
        else comments in
      {| explosionRisk := explosionRisk;
         flammabilityRisk := flammabilityRisk;
         potentialOverpressure := potentialOverpressure;
         potentialThermalRadiation := potentialThermalRadiation;
         safeDistance := safeDistance;
         comments := comments |}
  end.

(** ** leakDetection *)

Record LeakDetectionResult : Type := {
  isLeaking : bool;
  confidence : num;
  severityLevel : RiskLevel;
  detectionThreshold : num;
  exceedsFactor : num;
  timeToAction : num;
  recommendedActions : list string
}.

(** [backgroundLevel] defaults to 0.001 and [thresholdMultiplier] to 5. *)
Definition detectLeakage
  (chemical : string) (concentration : num)
  (backgroundLevel thresholdMultiplier : option num) : LeakDetectionResult :=
  let backgroundLevel := defaultTo backgroundLevel (Fin 0.001) in
  let thresholdMultiplier := defaultTo thresholdMultiplier (Fin 5) in
  match get (toLowerCase chemical) with
  | None =>
      {| isLeaking := false; confidence := Fin 0; severityLevel := NoRisk;
         detectionThreshold := Fin 0; exceedsFactor := Fin 0;
         timeToAction := Fin 60;
         recommendedActions := ["Verify chemical properties in database"%string] |}
  | Some chemData =>
      let detectionThreshold :=
        nmax (backgroundLevel * thresholdMultiplier)
             (Fin 0.01 * convertConcentrationUnit
                           (chemData.(aegl1) ||| Fin 1) chemical ppm mg_m3) in
      let isLeaking := concentration >? detectionThreshold in
      let exceedsFactor :=
        if isLeaking then concentration / detectionThreshold else Fin 0 in
      let confidence :=
        if isLeaking then
          if exceedsFactor >=? Fin 10 then Fin 0.95
          else if exceedsFactor >=? Fin 5 then Fin 0.85
          else if exceedsFactor >=? Fin 2 then Fin 0.7
          else Fin 0.5
        else Fin 0 in
      let severityLevel :=
        if isLeaking then
          let aegl1 :=
            convertConcentrationUnit (chemData.(aegl1) ||| Fin 0) chemical ppm mg_m3 in
          let aegl2 :=
            convertConcentrationUnit (chemData.(aegl2) ||| Fin 0) chemical ppm mg_m3 in
          let aegl3 :=
            convertConcentrationUnit (chemData.(aegl3) ||| Fin 0) chemical ppm mg_m3 in
          if ((aegl3 >? Fin 0) && (concentration >=? aegl3))%bool then Extreme
          else if ((aegl2 >? Fin 0) && (concentration >=? aegl2))%bool then High
          else if ((aegl1 >? Fin 0) && (concentration >=? aegl1))%bool then Moderate
          else if concentration >=? detectionThreshold * Fin 2 then Low
          else Low
        else NoRisk in
      let timeToAction :=
        if isLeaking then
          match severityLevel with
          | Extreme => Fin 5
          | High => Fin 15
          | Moderate => Fin 30
          | Low => Fin 60
          | NoRisk => Fin 60
          end
        else Fin 60 in
      let recommendedActions :=
        (if isLeaking then
           List.app
             ["Verify reading with additional monitoring"]
             (List.app
                (match severityLevel with
                 | Extreme | High =>
                     [ "Activate emergency response protocol";
                       "Consider evacuation of affected areas";
                       "Use appropriate PPE for response personnel";
                       "Identify and isolate the source of the leak" ]
                 | Moderate =>
                     [ "Increase ventilation in the affected area";
                       "Notify response team and prepare for potential escalation";
                       "Begin source identification procedures" ]
                 | _ =>
                     [ "Continue monitoring at increased frequency";
                       "Prepare response equipment as a precautionary measure" ]
                 end)
                (if ((chemData.(lel) >? Fin 0) && (chemData.(uel) >? Fin 0))%bool
                 then ["Eliminate all ignition sources in the vicinity"]
                 else []))
         else
           [ "Continue routine monitoring";
             "Check monitoring equipment calibration at next maintenance interval" ]
        )%string in
      {| isLeaking := isLeaking;
         confidence := confidence;
         severityLevel := severityLevel;
         detectionThreshold := detectionThreshold;
         exceedsFactor := exceedsFactor;
         timeToAction := timeToAction;
         recommendedActions := recommendedActions |}
  end.

(** ** weatherService *)

(** [isDay] is a number (0 or 1 in the weather feed), tested with [=== 1]. *)
Definition calculateStabilityClass (windSpeed cloudCover isDay : num) : string :=
  let windSpeedMS :=
    if windSpeed >? Fin 20 then windSpeed / Fin 3.6 else windSpeed in
  if isDay === Fin 1 then
     if cloudCover <? Fin 40 then
       if windSpeedMS <? Fin 2 then "A"%string
       else if windSpeedMS <? Fin 3 then "A-B"%string
       else if windSpeedMS <? Fin 5 then "B"%string
       else if windSpeedMS <? Fin 6 then "C"%string
       else "D"%string
     else if cloudCover <? Fin 70 then
       if windSpeedMS <? Fin 2 then "B"%string
       else if windSpeedMS <? Fin 3 then "B-C"%string
       else if windSpeedMS <? Fin 5 then "C"%string
       else if windSpeedMS <? Fin 6 then "C-D"%string
       else "D"%string
     else
       if windSpeedMS <? Fin 2 then "C"%string
       else if windSpeedMS <? Fin 5 then "D"%string
       else "D"%string
   else
     if cloudCover >=? Fin 50 then
       if windSpeedMS <? Fin 2.5 then "E"%string
       else "D"%string
     else
       if windSpeedMS <? Fin 2.5 then "F"%string
       else if windSpeedMS <? Fin 4 then "E"%string
       else "D"%string.

(** ** dispersionModel *)

Module weatherImpact.
Record t : Type := {
  windFactor : num;
  stabilityClass : string;
  dispersionMultiplier : num
}.
End weatherImpact.

Inductive MonitoringMode : Type := continuous | batch.

Record ModelParameters : Type := {
  chemicalType : string;
  releaseRate : num;
  windSpeed : num;
  windDirection : num;
  stabilityClass : string;
  temperature : num;
  sourceHeight : num;
  sourceLocation : num * num;
  ambientPressure : option num;
  humidity : option num;
  terrain : option string;
  relativeHumidity : option num;
  isIndoor : option bool;
  containmentType : option string;
  sensorThreshold : option num;
  leakDuration : option num;
  sensorCount : option num;
  monitoringMode : option MonitoringMode;
  weatherImpact : option weatherImpact.t
}.

Record Zone : Type := {
  distance : num;
  concentration : num
}.

Record ZoneData : Type := {
  red : Zone;
  orange : Zone;
  yellow : Zone
}.

Definition getStabilityFactor (stabilityClass : string) : num :=
  if String.eqb stabilityClass "A" then Fin 0.5
  else if String.eqb stabilityClass "B" then Fin 0.7
  else if String.eqb stabilityClass "C" then Fin 0.9
  else if String.eqb stabilityClass "D" then Fin 1.0
  else if String.eqb stabilityClass "E" then Fin 1.2
  else if String.eqb stabilityClass "F" then Fin 1.5
  else Fin 1.0.

Definition terrainIs (p : ModelParameters) (t : string) : bool :=
  match p.(terrain) with
  | Some s => String.eqb s t
  | None => false
  end.

(** [o?.f || d] for a numeric property [f] of an optional object [o]. *)
Definition optionalOr {A : Type} (o : option A) (f : A -> num) (d : num) : num :=
  match o with
  | Some a => f a ||| d
  | None => d
  end.

(** [calculateDispersion] reads the ambient generator once; [random] is the
    value that call of [Math.random()] returns, a number in [0, 1). *)
Definition calculateDispersion (params : ModelParameters) (random : R) : ZoneData :=
  let stabilityClass :=
    match params.(weatherImpact) with
    | Some w =>
        if String.eqb w.(weatherImpact.stabilityClass) ""
        then params.(stabilityClass) else w.(weatherImpact.stabilityClass)
    | None => params.(stabilityClass)
    end in
  let stabilityFactor := getStabilityFactor stabilityClass in
  let temperatureFactor := Fin 1 + (params.(temperature) - Fin 20) / Fin 100 in
  let humidityFactor :=
    match truthyValue params.(relativeHumidity) with
    | Some relativeHumidity => Fin 1 - (relativeHumidity / Fin 200)
    | None =>
        match truthyValue params.(humidity) with
        | Some humidity => Fin 1 - (humidity / Fin 200)
        | None => Fin 1
        end
    end in
  let pressureFactor :=
    match truthyValue params.(ambientPressure) with
    | Some ambientPressure => ambientPressure / Fin 1013.25
    | None => Fin 1
    end in
  let terrainFactor :=
    if terrainIs params "urban" then Fin 0.8
    else if terrainIs params "forest" then Fin 0.7
    else if terrainIs params "water" then Fin 1.2
    else Fin 1.0 in
  let containmentFactor :=
    match params.(isIndoor) with
    | Some true => Fin 0.3
    | _ => Fin 1.0
    end in
  let weatherImpactFactor :=
    optionalOr params.(weatherImpact) weatherImpact.dispersionMultiplier (Fin 1.0) in
  let adjustedReleaseRate :=
    params.(releaseRate) * temperatureFactor * humidityFactor * pressureFactor
    * terrainFactor * containmentFactor * weatherImpactFactor in
  let windFactor :=
    optionalOr params.(weatherImpact) weatherImpact.windFactor
               (nsqrt params.(windSpeed) / Fin 2) in
  let baseDistance := nsqrt adjustedReleaseRate * stabilityFactor * windFactor in
  let chemicalData := get (toLowerCase params.(chemicalType)) in
  let chemicalFactor :=
    match chemicalData with
    | Some chemicalData =>
        let molecularWeightFactor :=
          nsqrt chemicalData.(molecularWeight) / Fin 10 in
        let vaporPressureFactor :=
          nlog10 (nmax (Fin 1) chemicalData.(vaporPressure)) / Fin 3 in
        let chemicalFactor := molecularWeightFactor * vaporPressureFactor in
        nmax (Fin 0.8) (nmin (Fin 2.0) chemicalFactor)
    | None =>
        let key := toLowerCase params.(chemicalType) in
        if String.eqb key "chlorine" then Fin 1.5
        else if String.eqb key "ammonia" then Fin 1.3
        else Fin 1.2
    end in
  let redDistance := baseDistance * chemicalFactor * Fin 0.3 in
  let orangeDistance := baseDistance * chemicalFactor * Fin 0.6 in
  let yellowDistance := baseDistance * chemicalFactor * Fin 1.0 in
  let randomFactor := Fin 0.95 + Fin random * Fin 0.1 in
  {| red :=
       {| distance := nmax (Fin 0.5) (nmin (Fin 5) (redDistance * randomFactor));
          concentration := optionalOr chemicalData aegl3 (Fin 5) |};
     orange :=
       {| distance := nmax (Fin 1) (nmin (Fin 8) (orangeDistance * randomFactor));
          concentration := optionalOr chemicalData aegl2 (Fin 3) |};
     yellow :=
       {| distance := nmax (Fin 1.5) (nmin (Fin 15) (yellowDistance * randomFactor));
          concentration := optionalOr chemicalData aegl1 (Fin 1) |} |}.

(** ** More of [Math]

    [Math.round], [Math.ceil], [Math.cos], [Math.sin], [Math.PI], [Math.pow]
    and the idiom [parseFloat(x.toFixed(digits))], on the same exact model of
    numbers.  The integer part of a real is [Int_part]. *)

Definition Rceil (x : R) : Z := (- Int_part (- x))%Z.

(** [Math.round] rounds to the nearest integer, halves towards +Infinity. *)
Definition nround (x : num) : num :=
  match x with
  | Fin a => Fin (IZR (Int_part (a + / 2)))
  | _ => x
  end.

Definition nceil (x : num) : num :=
  match x with
  | Fin a => Fin (IZR (Rceil a))
  | _ => x
  end.

Definition ncos (x : num) : num :=
  match x with
  | Fin a => Fin (cos a)
  | _ => NaN
  end.

Definition nsin (x : num) : num :=
  match x with
  | Fin a => Fin (sin a)
  | _ => NaN
  end.

Definition isIntegerR (y : R) : bool := Reqb (IZR (Int_part y)) y.

(** [Math.pow], case by case as the language specification lists them (a
    zero base is the positive zero). *)
Definition npow (base exponent : num) : num :=
  match exponent with
  | NaN => NaN
  | Fin y =>
      if Reqb y 0 then Fin 1
      else
        match base with
        | NaN => NaN
        | PInf => if Rltb 0 y then PInf else Fin 0
        | NInf =>
            if Rltb 0 y
            then (if (isIntegerR y && Z.odd (Int_part y))%bool then NInf else PInf)
            else Fin 0
        | Fin b =>
            if Reqb b 0 then (if Rltb 0 y then Fin 0 else PInf)
            else if Rltb 0 b then Fin (Rpower b y)
            else if isIntegerR y
            then Fin ((if Z.odd (Int_part y) then -1 else 1) * Rpower (- b) y)
            else NaN
        end
  | PInf =>
      match base with
      | NaN => NaN
      | PInf | NInf => PInf
      | Fin b =>
          if Reqb b 0 then Fin 0
          else if Rltb 1 (Rabs b) then PInf
          else if Reqb (Rabs b) 1 then NaN
          else Fin 0
      end
  | NInf =>
      match base with
      | NaN => NaN
      | PInf | NInf => Fin 0
      | Fin b =>
          if Reqb b 0 then PInf
          else if Rltb 1 (Rabs b) then Fin 0
          else if Reqb (Rabs b) 1 then NaN
          else PInf
      end
  end.

(** [parseFloat(x.toFixed(digits))]: [toFixed] prints the decimal with
    [digits] fractional digits nearest to [x] (the larger one on a tie, the
    sign set aside), and prints numbers from 1e21 on, NaN and the infinities
    as they are; [parseFloat] reads the number back. *)
Definition parseFloatToFixed (digits : nat) (x : num) : num :=
  match x with
  | Fin a =>
      if Rleb 1e21 (Rabs a) then Fin a
      else if Rltb a 0
      then Fin (- (IZR (Int_part (- a * 10 ^ digits + / 2)) / 10 ^ digits))
      else Fin (IZR (Int_part (a * 10 ^ digits + / 2)) / 10 ^ digits)
  | _ => x
  end.

Arguments nround : simpl never.
Arguments nceil : simpl never.
Arguments ncos : simpl never.
Arguments nsin : simpl never.
Arguments npow : simpl never.
Arguments parseFloatToFixed : simpl never.

(** [String.prototype.charAt(0)]. *)
Definition charAt0 (s : string) : string :=
  match s with
  | EmptyString => EmptyString
  | String ch _ => String ch EmptyString
  end.

(** ** weatherService: the weather impact *)

Module WeatherData.
Record t : Type := {
  temperature : option num;
  humidity : option num;
  windSpeed : option num;
  windDirection : option num;
  cloudCover : option num;
  precipitation : option num;
  pressure : option num;
  weatherCode : option num;
  isDay : option num
}.
End WeatherData.

Definition neutralWeatherImpact : weatherImpact.t := {|
  weatherImpact.windFactor := Fin 1.0;
  weatherImpact.stabilityClass := "D";
  weatherImpact.dispersionMultiplier := Fin 1.0 |}.

Definition calculateWeatherImpact (weatherData : WeatherData.t) : weatherImpact.t :=
  match truthyValue weatherData.(WeatherData.windSpeed),
        weatherData.(WeatherData.cloudCover),
        weatherData.(WeatherData.isDay) with
  | Some windSpeed, Some cloudCover, Some isDay =>
      let stabilityClass := calculateStabilityClass windSpeed cloudCover isDay in
      let windFactor :=
        if windSpeed <? Fin 5 then Fin 0.8
        else if windSpeed >? Fin 15 then Fin 1.3
        else Fin 1.0 + (windSpeed - Fin 5) * Fin 0.03 in
      let first := charAt0 stabilityClass in
      let stabilityFactor :=
        if String.eqb first "A" then Fin 1.3
        else if String.eqb first "B" then Fin 1.2
        else if String.eqb first "C" then Fin 1.1
        else if String.eqb first "D" then Fin 1.0
        else if String.eqb first "E" then Fin 0.8
        else if String.eqb first "F" then Fin 0.6
        else Fin 1.0 in
      let precipFactor :=
        match truthyValue weatherData.(WeatherData.precipitation) with
        | Some precipitation =>
            if precipitation >? Fin 0
            then nmax (Fin 0.7) (Fin 1.0 - precipitation * Fin 0.1)
            else Fin 1.0
        | None => Fin 1.0
        end in
      let dispersionMultiplier := windFactor * stabilityFactor * precipFactor in
      {| weatherImpact.windFactor := windFactor;
         weatherImpact.stabilityClass := stabilityClass;
         weatherImpact.dispersionMultiplier := dispersionMultiplier |}
  | _, _, _ => neutralWeatherImpact
  end.

(** ** dispersionModel: health impact *)

Inductive HealthSeverity : Type := low | medium | high | fatal.

(** The descriptions [calculateHealthImpact] returns; the AEGL value is the
    one the template string interpolates. *)
Inductive HealthDescription : Type :=
| ExceedsAEGL3 (aegl3 : num)
| ExceedsAEGL2 (aegl2 : num)
| ExceedsAEGL1 (aegl1 : num)
| BelowAllGuidelines
| PotentiallyFatalExposure
| SeriousHealthEffects
| ModerateHealthEffects
| MinorIrritationPossible.

Definition calculateHealthImpact
  (concentration exposureTime : num) (chemicalType : string)
  : HealthSeverity * HealthDescription :=
  let chemicalData := get (toLowerCase chemicalType) in
  let dosage := concentration * exposureTime in
  match chemicalData with
  | Some chemicalData =>
      let concInPpm := concentration * Fin 24.45 / chemicalData.(molecularWeight) in
      if (truthy chemicalData.(aegl3) && (concInPpm >? chemicalData.(aegl3)))%bool
      then (fatal, ExceedsAEGL3 chemicalData.(aegl3))
      else if (truthy chemicalData.(aegl2) && (concInPpm >? chemicalData.(aegl2)))%bool
      then (high, ExceedsAEGL2 chemicalData.(aegl2))
      else if (truthy chemicalData.(aegl1) && (concInPpm >? chemicalData.(aegl1)))%bool
      then (medium, ExceedsAEGL1 chemicalData.(aegl1))
      else (low, BelowAllGuidelines)
  | None =>
      if dosage >? Fin 1000 then (fatal, PotentiallyFatalExposure)
      else if dosage >? Fin 500 then (high, SeriousHealthEffects)
      else if dosage >? Fin 100 then (medium, ModerateHealthEffects)
      else (low, MinorIrritationPossible)
  end.

(** ** dispersionModel: dispersion coefficients *)

(** The property names every plain object inherits from [Object.prototype]:
    a lookup [table[key]] with such a key yields a truthy value that has none
    of the table's fields. *)
Definition objectPrototypeKeys : list string :=
  [ "constructor"; "__defineGetter__"; "__defineSetter__"; "hasOwnProperty";
    "__lookupGetter__"; "__lookupSetter__"; "isPrototypeOf";
    "propertyIsEnumerable"; "toString"; "valueOf"; "__proto__";
    "toLocaleString" ]%string.

Definition isObjectPrototypeKey (key : string) : bool :=
  existsb (String.eqb key) objectPrototypeKeys.

(** [coefficients[stabilityClass] || coefficients['D']] on a table with the
    keys A to F; an inherited member reads [undefined] for both numbers. *)
Definition classCoefficients
  (A B C D E F : num * num) (stabilityClass : string) : num * num :=
  if String.eqb stabilityClass "A" then A
  else if String.eqb stabilityClass "B" then B
  else if String.eqb stabilityClass "C" then C
  else if String.eqb stabilityClass "D" then D
  else if String.eqb stabilityClass "E" then E
  else if String.eqb stabilityClass "F" then F
  else if isObjectPrototypeKey stabilityClass then (NaN, NaN)
  else D.

Definition calculateSigmaY (distance : num) (stabilityClass : string) : num :=
  let coef :=
    classCoefficients
      (Fin 0.22, Fin 0.0001) (Fin 0.16, Fin 0.0001) (Fin 0.11, Fin 0.0001)
      (Fin 0.08, Fin 0.0001) (Fin 0.06, Fin 0.0001) (Fin 0.04, Fin 0.0001)
      stabilityClass in
  fst coef * distance * npow (Fin 1 + snd coef * distance) (Fin (-0.5)).

Definition calculateSigmaZ (distance : num) (stabilityClass : string) : num :=
  let coef :=
    classCoefficients
      (Fin 0.20, Fin 0.0) (Fin 0.12, Fin 0.0) (Fin 0.08, Fin 0.0002)
      (Fin 0.06, Fin 0.0003) (Fin 0.03, Fin 0.0004) (Fin 0.016, Fin 0.0005)
      stabilityClass in
  fst coef * distance * npow (Fin 1 + snd coef * distance) (Fin (-0.5)).

(** ** dispersionModel: leak detection parameters *)

Module Sensor.
Record t : Type := {
  lat : num;
  lng : num;
  type : string
}.
End Sensor.

Module LeakDetection.
Record t : Type := {
  detectionProbability : num;
  timeToDetection : num;
  recommendedSensorLocations : list Sensor.t;
  detectionThreshold : num;
  falseAlarmRate : num;
  evacuationTime : num
}.
End LeakDetection.

Definition MonitoringMode_eqb (a b : MonitoringMode) : bool :=
  match a, b with
  | continuous, continuous | batch, batch => true
  | _, _ => false
  end.

(** A [for] loop whose counter runs through [indices] in order and which
    stops at the first index that fails the loop condition. *)
Fixpoint forWhile {A : Type} (cond : nat -> bool) (body : nat -> A)
  (indices : list nat) : list A :=
  match indices with
  | [] => []
  | i :: rest => if cond i then body i :: forWhile cond body rest else []
  end.

Definition natNum (n : nat) : num := Fin (INR n).

(** The loop [for (i = 1; i < Math.min(5, sensorCount); i++)] can only run
    for i = 1, 2, 3, 4: the bound is at most 5 (or NaN). *)
Definition calculateLeakDetection (params : ModelParameters) (zoneData : ZoneData)
  : LeakDetection.t :=
  let sensorThreshold := optionalOr params.(sensorThreshold) (fun x => x) (Fin 0.5) in
  let sensorCount := optionalOr params.(sensorCount) (fun x => x) (Fin 5) in
  let monitoringMode :=
    match params.(monitoringMode) with
    | Some mode => mode
    | None => continuous
    end in
  let detectionProbability := Fin 0.75 in
  let detectionProbability :=
    detectionProbability * nmin (Fin 1) (sensorCount / Fin 10) in
  let detectionProbability :=
    detectionProbability * nmin (Fin 1) (params.(releaseRate) / Fin 50) in
  let detectionProbability :=
    detectionProbability
    * (if MonitoringMode_eqb monitoringMode continuous then Fin 1.0 else Fin 0.7) in
  let detectionProbability := nmax (Fin 0) (nmin (Fin 1) detectionProbability) in
  let timeToDetection :=
    nmax (Fin 1)
         (Fin 10 * (sensorThreshold / nmax (Fin 0.1) params.(releaseRate))
          * (if MonitoringMode_eqb monitoringMode continuous then Fin 1 else Fin 5)) in
  let center := params.(sourceLocation) in
  let windDirectionRad := params.(windDirection) * Fin PI / Fin 180 in
  let source :=
    {| Sensor.lat := fst center; Sensor.lng := snd center; Sensor.type := "fixed" |} in
  let downwind :=
    forWhile
      (fun i => natNum i <? nmin (Fin 5) sensorCount)
      (fun i =>
         let angle :=
           windDirectionRad + (if Nat.even i then Fin 0.3 else Fin (-0.3)) in
         let distance := natNum i * zoneData.(yellow).(distance) / Fin 4 in
         let lat := fst center + (distance * ncos angle) / Fin 111.32 in
         let lng :=
           snd center
           + (distance * nsin angle)
             / (Fin 111.32 * ncos (fst center * (Fin PI / Fin 180))) in
         {| Sensor.lat := lat; Sensor.lng := lng;
            Sensor.type := if Nat.ltb i 3 then "fixed" else "mobile" |})
      [1; 2; 3; 4]%nat in
  let falseAlarmRate := Fin 2 / (sensorThreshold * Fin 4) in
  let avgPopulationDensity := Fin 500 in
  let totalArea := Fin PI * npow zoneData.(yellow).(distance) (Fin 2) in
  let totalPopulation := totalArea * avgPopulationDensity in
  let evacuationTime := Fin 20 + nsqrt (totalPopulation / Fin 100) in
  {| LeakDetection.detectionProbability := detectionProbability;
     LeakDetection.timeToDetection := timeToDetection;
     LeakDetection.recommendedSensorLocations := source :: downwind;
     LeakDetection.detectionThreshold := sensorThreshold;
     LeakDetection.falseAlarmRate := falseAlarmRate;
     LeakDetection.evacuationTime := evacuationTime |}.

(** ** dispersionModel: concentration profile *)

Definition generateConcentrationProfile
  (params : ModelParameters) (maxConc maxDist : num) : list Zone :=
  let intervals := Fin 20 in
  let kn :=
    let s := params.(stabilityClass) in
    if String.eqb s "A" then (Fin 4.0, Fin 1.5)
    else if String.eqb s "B" then (Fin 3.5, Fin 1.6)
    else if String.eqb s "C" then (Fin 3.0, Fin 1.7)
    else if String.eqb s "D" then (Fin 2.5, Fin 1.8)
    else if String.eqb s "E" then (Fin 2.0, Fin 1.9)
    else if String.eqb s "F" then (Fin 1.5, Fin 2.0)
    else (Fin 2.5, Fin 1.8) in
  let n := snd kn in
  let windFactor := nmin (nmax params.(windSpeed) (Fin 1)) (Fin 10) / Fin 5 in
  let k := fst kn * (Fin 0.7 + windFactor * Fin 0.3) in
  map (fun i =>
         let distance := (maxDist * natNum i) / intervals in
         let normalizedDistance := distance / maxDist in
         let concentration :=
           maxConc * nexp (nopp k * npow normalizedDistance n) in
         {| distance := parseFloatToFixed 2 distance;
            concentration := parseFloatToFixed 3 concentration |})
      (seq 0 21).

(** ** dispersionModel: detailed results *)

Module Detailed.
Record DispersionCoefficients : Type := {
  sigmaY : num;
  sigmaZ : num
}.

Record ZoneResult : Type := {
  distance : num;
  concentration : num;
  area : num;
  populationAtRisk : num
}.

Record t : Type := {
  redZone : ZoneResult;
  orangeZone : ZoneResult;
  yellowZone : ZoneResult;
  massReleased : num;
  evaporationRate : num;
  dispersionCoefficients : DispersionCoefficients;
  maximumConcentration : num;
  lethalDistance : num;
  concentrationProfile : list Zone;
  detectionProbability : num;
  timeToDetection : num;
  recommendedSensorLocations : list Sensor.t;
  detectionThreshold : num;
  falseAlarmRate : num;
  evacuationTime : num;
  weatherImpactFactor : option num;
  effectiveStabilityClass : option string
}.
End Detailed.

(** [random] is the value [Math.random()] returns inside
    [calculateDispersion]; [distanceMeters] is the local [distance] of the
    source. *)
Definition calculateDetailedDispersion (params : ModelParameters) (random : R)
  : Detailed.t :=
  let zoneData := calculateDispersion params random in
  let simulationTime := optionalOr params.(leakDuration) (fun x => x) (Fin 60) in
  let massReleased := params.(releaseRate) * simulationTime in
  let evaporationRate := params.(releaseRate) / Fin 60 in
  let distanceMeters := zoneData.(yellow).(distance) * Fin 1000 in
  let sigmaY := calculateSigmaY distanceMeters params.(stabilityClass) in
  let sigmaZ := calculateSigmaZ distanceMeters params.(stabilityClass) in
  let maxConcentration :=
    (params.(releaseRate) * Fin 1000)
    / (Fin PI * params.(windSpeed) * sigmaY * sigmaZ) in
  let lethalDistance := zoneData.(red).(distance) * Fin 0.7 in
  let redAreaFactor := Fin 0.33 in
  let redArea :=
    Fin PI * npow zoneData.(red).(distance) (Fin 2) * redAreaFactor in
  let orangeArea :=
    Fin PI * npow zoneData.(orange).(distance) (Fin 2) * redAreaFactor
    - redArea in
  let yellowArea :=
    Fin PI * npow zoneData.(yellow).(distance) (Fin 2) * redAreaFactor
    - redArea - orangeArea in
  let populationDensity :=
    if terrainIs params "urban" then Fin 3000
    else if terrainIs params "suburban" then Fin 1000
    else if terrainIs params "rural" then Fin 100
    else if terrainIs params "water" then Fin 10
    else if terrainIs params "forest" then Fin 50
    else Fin 500 in
  let redPopulation := nround (redArea * populationDensity) in
  let orangePopulation := nround (orangeArea * populationDensity) in
  let yellowPopulation := nround (yellowArea * populationDensity) in
  let concentrationProfile :=
    generateConcentrationProfile params
      zoneData.(red).(concentration)
      (zoneData.(yellow).(distance) * Fin 1.2) in
  let detectionResults := calculateLeakDetection params zoneData in
  {| Detailed.redZone :=
       {| Detailed.distance := zoneData.(red).(distance);
          Detailed.concentration := zoneData.(red).(concentration);
          Detailed.area := redArea;
          Detailed.populationAtRisk := redPopulation |};
     Detailed.orangeZone :=
       {| Detailed.distance := zoneData.(orange).(distance);
          Detailed.concentration := zoneData.(orange).(concentration);
          Detailed.area := orangeArea;
          Detailed.populationAtRisk := orangePopulation |};
     Detailed.yellowZone :=
       {| Detailed.distance := zoneData.(yellow).(distance);
          Detailed.concentration := zoneData.(yellow).(concentration);
          Detailed.area := yellowArea;
          Detailed.populationAtRisk := yellowPopulation |};
     Detailed.massReleased := massReleased;
     Detailed.evaporationRate := evaporationRate;
     Detailed.dispersionCoefficients :=
       {| Detailed.sigmaY := sigmaY; Detailed.sigmaZ := sigmaZ |};
     Detailed.maximumConcentration := maxConcentration;
     Detailed.lethalDistance := lethalDistance;
     Detailed.concentrationProfile := concentrationProfile;
     Detailed.detectionProbability :=
       detectionResults.(LeakDetection.detectionProbability);
     Detailed.timeToDetection := detectionResults.(LeakDetection.timeToDetection);
     Detailed.recommendedSensorLocations :=
       detectionResults.(LeakDetection.recommendedSensorLocations);
     Detailed.detectionThreshold :=
       detectionResults.(LeakDetection.detectionThreshold);
     Detailed.falseAlarmRate := detectionResults.(LeakDetection.falseAlarmRate);
     Detailed.evacuationTime := detectionResults.(LeakDetection.evacuationTime);
     Detailed.weatherImpactFactor := None;
     Detailed.effectiveStabilityClass := None |}.

(** ** dispersionModel: protective actions *)

Inductive ShelterType : Type := indoor | vehicle | fullEvacuation.

Record ProtectiveActionResult : Type := {
  effectivenessPercent : num;
  casualtyReductionPercent : num;
  recommendation : string
}.

Definition evaluateProtectiveActions
  (params : ModelParameters) (evacuationTime : num) (shelterType : ShelterType)
  (random : R) : ProtectiveActionResult :=
  let results := calculateDetailedDispersion params random in
  let timeToDetection := results.(Detailed.timeToDetection) in
  let timeBeforeSignificantExposure := Fin 10 in
  let totalAvailableTime := timeBeforeSignificantExposure - timeToDetection in
  match shelterType with
  | fullEvacuation =>
      if totalAvailableTime >? evacuationTime then
        {| effectivenessPercent := Fin 95;
           casualtyReductionPercent := Fin 98;
           recommendation :=
             "Full evacuation recommended - sufficient time available" |}
      else if totalAvailableTime >? evacuationTime * Fin 0.7 then
        {| effectivenessPercent := Fin 75;
           casualtyReductionPercent := Fin 85;
           recommendation :=
             "Partial evacuation possible - prioritize vulnerable populations" |}
      else
        {| effectivenessPercent := Fin 30;
           casualtyReductionPercent := Fin 40;
           recommendation :=
             "Insufficient time for evacuation - shelter in place" |}
  | indoor =>
      let chemicalData := get (toLowerCase params.(chemicalType)) in
      let buildingProtectionFactor :=
        match chemicalData with
        | Some chemicalData =>
            if chemicalData.(boilingPoint) <? Fin 20 then Fin 0.7
            else if chemicalData.(boilingPoint) >? Fin 100 then Fin 0.3
            else Fin 0.5
        | None => Fin 0.5
        end in
      let effectivenessPercent := (Fin 1 - buildingProtectionFactor) * Fin 100 in
      {| effectivenessPercent := effectivenessPercent;
         casualtyReductionPercent := effectivenessPercent + Fin 10;
         recommendation :=
           "Shelter in place - close all windows and doors, turn off ventilation" |}
  | vehicle =>
      {| effectivenessPercent := Fin 20;
         casualtyReductionPercent := Fin 30;
         recommendation :=
           "Vehicle provides minimal protection - evacuate if possible" |}
  end.

(** ** dispersionModel: simulated detection *)

(** [random] is drawn inside [calculateDispersion], [detectionDraw] by the
    comparison that decides the detection. *)
Definition simulateLeakDetection
  (params : ModelParameters) (random detectionDraw : R) : bool :=
  let results := calculateDetailedDispersion params random in
  match params.(monitoringMode) with
  | Some batch =>
      Fin detectionDraw <? results.(Detailed.detectionProbability) * Fin 0.8
  | _ => Fin detectionDraw <? results.(Detailed.detectionProbability)
  end.

(** * Vocabulary of the properties *)

(** Every entry of the table has finite properties, a positive molecular
    weight, vapor pressure and specific gravity, non-negative AEGL values, and
    either no flammable limits at all or [0 < LEL <= UEL]. *)
Definition regular (c : ChemicalProperties) : Prop :=
  exists mw bp vp sg l u a1 a2 a3 e rh bl : R,
    molecularWeight c = Fin mw /\ boilingPoint c = Fin bp /\
    vaporPressure c = Fin vp /\ specificGravity c = Fin sg /\
    lel c = Fin l /\ uel c = Fin u /\
    aegl1 c = Fin a1 /\ aegl2 c = Fin a2 /\ aegl3 c = Fin a3 /\
    explosionEnergy c = Fin e /\ reactivityHazard c = Fin rh /\
    blastPotential c = Fin bl /\
    (0 < mw /\ 0 < vp /\ 0 < sg /\ 0 <= a1 /\ 0 <= a2 /\ 0 <= a3 /\
     ((l = 0 /\ u = 0) \/ (0 < l /\ l <= u)))%R.

(** The order [None < Low < Moderate < High < Extreme] on risk levels. *)
Definition riskRank (l : RiskLevel) : nat :=
  match l with
  | NoRisk => 0
  | Low => 1
  | Moderate => 2
  | High => 3
  | Extreme => 4
  end.

Definition RiskLevel_le (a b : RiskLevel) : Prop := (riskRank a <= riskRank b)%nat.

(** The six Pasquill-Gifford classes, and the labels between two classes. *)
Definition pasquillGiffordClasses : list string :=
  ["A"; "B"; "C"; "D"; "E"; "F"]%string.

Definition intermediateClasses : list string :=
  ["A-B"; "B-C"; "C-D"]%string.

(** The three zone concentrations of a result, red first. *)
Definition zoneConcentrations (z : ZoneData) : num * num * num :=
  (concentration (red z), concentration (orange z), concentration (yellow z)).

(** A release of [rate] kg/min of [chemical] at 20 C under a 4 m/s wind and
    neutral stability, with every optional parameter absent. *)
Definition scenario (chemical : string) (rate : R) : ModelParameters := {|
  chemicalType := chemical;
  releaseRate := Fin rate;
  windSpeed := Fin 4;
  windDirection := Fin 90;
  stabilityClass := "D";
  temperature := Fin 20;
  sourceHeight := Fin 2;
  sourceLocation := (Fin 0, Fin 0);
  ambientPressure := None;
  humidity := None;
  terrain := None;
  relativeHumidity := None;
  isIndoor := None;
  containmentType := None;
  sensorThreshold := None;
  leakDuration := None;
  sensorCount := None;
  monitoringMode := None;
  weatherImpact := None
|}.


(** The all-zero result documented for an unknown chemical. *)
Definition zeroMassBalance : MassBalanceResult := {|
  totalReleased := Fin 0; massReleaseRate := Fin 0;
  vaporGenerated := Fin 0; vaporGenerationRate := Fin 0;
  poolFormation := Fin 0; poolEvaporation := Fin 0;
  poolEvaporationRate := Fin 0; airborneRelease := Fin 0;
  massBalance := [];
  timeToEmpty := None; poolDuration := None; poolArea := None |}.

(** The order [low < medium < high < fatal] on health severities. *)
Definition healthRank (s : HealthSeverity) : nat :=
  match s with
  | low => 0
  | medium => 1
  | high => 2
  | fatal => 3
  end.

(** The vapor fraction [calculateMassBalance] gives a release below its
    boiling point, as a function of vapor pressure and temperature. *)
Definition liquidVaporFraction (vp t : R) : R :=
  Rmin 1.0 (Rmax 0.1 (0.2 + 0.8 * (vp / 760) * exp (0.0555 * (t - 20)))).

(** The AEGL-1 value the detection threshold is built from: 1 ppm when the
    table has none. *)
Definition thresholdAegl1 (a1 : R) : R := if Reqb a1 0 then 1%R else a1.

(** Parameters with the weather impact, or the wind speed, replaced. *)
Definition withWeatherImpact (p : ModelParameters) (w : option weatherImpact.t)
  : ModelParameters := {|
  chemicalType := p.(chemicalType);
  releaseRate := p.(releaseRate);
  windSpeed := p.(windSpeed);
  windDirection := p.(windDirection);
  stabilityClass := p.(stabilityClass);
  temperature := p.(temperature);
  sourceHeight := p.(sourceHeight);
  sourceLocation := p.(sourceLocation);
  ambientPressure := p.(ambientPressure);
  humidity := p.(humidity);
  terrain := p.(terrain);
  relativeHumidity := p.(relativeHumidity);
  isIndoor := p.(isIndoor);
  containmentType := p.(containmentType);
  sensorThreshold := p.(sensorThreshold);
  leakDuration := p.(leakDuration);
  sensorCount := p.(sensorCount);
  monitoringMode := p.(monitoringMode);
  weatherImpact := w
|}.


(** A weather impact with its stability label replaced by the neutral D. *)
Definition withClassD (w : weatherImpact.t) : weatherImpact.t := {|
  weatherImpact.windFactor := w.(weatherImpact.windFactor);
  weatherImpact.stabilityClass := "D";
  weatherImpact.dispersionMultiplier := w.(weatherImpact.dispersionMultiplier)
|}.

(** A clear day under a light wind, and a clear night under a light wind. *)
Definition clearDayLightWind : WeatherData.t := {|
  WeatherData.temperature := Some (Fin 25);
  WeatherData.humidity := Some (Fin 40);
  WeatherData.windSpeed := Some (Fin 2.5);
  WeatherData.windDirection := Some (Fin 90);
  WeatherData.cloudCover := Some (Fin 0);
  WeatherData.precipitation := Some (Fin 0);
  WeatherData.pressure := Some (Fin 1013);
  WeatherData.weatherCode := Some (Fin 0);
  WeatherData.isDay := Some (Fin 1)
|}.

Definition clearNightLightWind : WeatherData.t := {|
  WeatherData.temperature := Some (Fin 12);
  WeatherData.humidity := Some (Fin 60);
  WeatherData.windSpeed := Some (Fin 1.5);
  WeatherData.windDirection := Some (Fin 90);
  WeatherData.cloudCover := Some (Fin 10);
  WeatherData.precipitation := None;
  WeatherData.pressure := Some (Fin 1013);
  WeatherData.weatherCode := Some (Fin 0);
  WeatherData.isDay := Some (Fin 0)
|}.

(** The coefficients of [calculateSigmaY] and [calculateSigmaZ] as reals, and
    the pairs of neighbouring classes. *)
Definition sigmaYCoefficient (s : string) : R :=
  if String.eqb s "A" then 0.22 else if String.eqb s "B" then 0.16
  else if String.eqb s "C" then 0.11 else if String.eqb s "D" then 0.08
  else if String.eqb s "E" then 0.06 else if String.eqb s "F" then 0.04 else 0.08.

Definition sigmaZCoefficients (s : string) : R * R :=
  if String.eqb s "A" then (0.20, 0.0) else if String.eqb s "B" then (0.12, 0.0)
  else if String.eqb s "C" then (0.08, 0.0002) else if String.eqb s "D" then (0.06, 0.0003)
  else if String.eqb s "E" then (0.03, 0.0004)
  else if String.eqb s "F" then (0.016, 0.0005) else (0.06, 0.0003).

Definition adjacentClasses : list (string * string) :=
  [("A", "B"); ("B", "C"); ("C", "D"); ("D", "E"); ("E", "F")]%string.

(** The sensor count [calculateLeakDetection] works with. *)
Definition effectiveSensorCount (o : option num) : num :=
  optionalOr o (fun x => x) (Fin 5).

(** The population density [calculateDetailedDispersion] assigns a terrain. *)
Definition populationDensity (params : ModelParameters) : R :=
  if terrainIs params "urban" then 3000
  else if terrainIs params "suburban" then 1000
  else if terrainIs params "rural" then 100
  else if terrainIs params "water" then 10
  else if terrainIs params "forest" then 50
  else 500.

(** The decay constant and the power of the concentration profile, per
    stability class, and the profile's exponent at its [i]-th point. *)
Definition decayParameters (s : string) : R * R :=
  if String.eqb s "A" then (4.0, 1.5)
  else if String.eqb s "B" then (3.5, 1.6)
  else if String.eqb s "C" then (3.0, 1.7)
  else if String.eqb s "D" then (2.5, 1.8)
  else if String.eqb s "E" then (2.0, 1.9)
  else if String.eqb s "F" then (1.5, 2.0)
  else (2.5, 1.8).

Definition profileDecay (s : string) (w : R) : R :=
  (fst (decayParameters s) * (0.7 + Rmin (Rmax w 1) 10 / 5 * 0.3))%R.

Definition profilePower (s : string) (i : nat) : R :=
  match i with
  | O => 0
  | _ => Rpower (INR i / 20) (snd (decayParameters s))
  end.

(** * Properties *)

(** ** Decisions on reals *)

Lemma Rltb_true (a b : R) : Rltb a b = true <-> (a < b)%R.
Proof. unfold Rltb; destruct (Rlt_dec a b); split; intros; (congruence || lra). Qed.

Lemma Rltb_false (a b : R) : Rltb a b = false <-> (b <= a)%R.
Proof. unfold Rltb; destruct (Rlt_dec a b); split; intros; (congruence || lra). Qed.

Lemma Rleb_true (a b : R) : Rleb a b = true <-> (a <= b)%R.
Proof. unfold Rleb; destruct (Rle_dec a b); split; intros; (congruence || lra). Qed.

Lemma Rleb_false (a b : R) : Rleb a b = false <-> (b < a)%R.
Proof. unfold Rleb; destruct (Rle_dec a b); split; intros; (congruence || lra). Qed.

Lemma Reqb_true (a b : R) : Reqb a b = true <-> a = b.
Proof. unfold Reqb; destruct (Req_dec_T a b); split; intros; congruence. Qed.

Lemma Reqb_false (a b : R) : Reqb a b = false <-> a <> b.
Proof. unfold Reqb; destruct (Req_dec_T a b); split; intros; congruence. Qed.

Lemma Reqb_refl (a : R) : Reqb a a = true.
Proof. apply Reqb_true; reflexivity. Qed.

(** Turn every boolean decision in the context into the inequality it decides. *)
Ltac reflect_decisions :=
  repeat match goal with
    | H : Rltb _ _ = true |- _ => apply Rltb_true in H
    | H : Rltb _ _ = false |- _ => apply Rltb_false in H
    | H : Rleb _ _ = true |- _ => apply Rleb_true in H
    | H : Rleb _ _ = false |- _ => apply Rleb_false in H
    | H : Reqb _ _ = true |- _ => apply Reqb_true in H
    | H : Reqb _ _ = false |- _ => apply Reqb_false in H
    end.

(** Split on the first decision the goal is stuck on. *)
Ltac decide_one :=
  match goal with
  | |- context [Rltb ?a ?b] => destruct (Rltb a b) eqn:?
  | |- context [Rleb ?a ?b] => destruct (Rleb a b) eqn:?
  | |- context [Reqb ?a ?b] => destruct (Reqb a b) eqn:?
  end; reflect_decisions; try (exfalso; lra); cbv beta iota; cbn [negb andb orb].

(** ** Arithmetic on finite numbers *)

Lemma nadd_Fin (a b : R) : Fin a + Fin b = Fin (a + b).
Proof. reflexivity. Qed.

Lemma nsub_Fin (a b : R) : Fin a - Fin b = Fin (a - b).
Proof. reflexivity. Qed.

Lemma nmul_Fin (a b : R) : Fin a * Fin b = Fin (a * b).
Proof. reflexivity. Qed.

Lemma ndiv_Fin (a b : R) : b <> 0%R -> Fin a / Fin b = Fin (a / b).
Proof. intros Hb; unfold ndiv; apply Reqb_false in Hb; rewrite Hb; reflexivity. Qed.

Lemma nsqrt_Fin (a : R) : (0 <= a)%R -> nsqrt (Fin a) = Fin (sqrt a).
Proof. intros Ha; unfold nsqrt; apply Rltb_false in Ha; rewrite Ha; reflexivity. Qed.

Lemma nexp_Fin (a : R) : nexp (Fin a) = Fin (exp a).
Proof. reflexivity. Qed.

Lemma nlog10_Fin (a : R) : (0 < a)%R -> nlog10 (Fin a) = Fin (ln a / ln 10).
Proof.
  intros Ha; unfold nlog10.
  assert (H1 : Rltb a 0 = false) by (apply Rltb_false; lra).
  assert (H2 : Reqb a 0 = false) by (apply Reqb_false; lra).
  rewrite H1, H2; reflexivity.
Qed.

Lemma nlt_Fin (a b : R) : (Fin a <? Fin b) = Rltb a b.
Proof. reflexivity. Qed.

Lemma ngt_Fin (a b : R) : (Fin a >? Fin b) = Rltb b a.
Proof. reflexivity. Qed.

Lemma neq_Fin (a b : R) : (Fin a === Fin b) = Reqb a b.
Proof. reflexivity. Qed.

Lemma nle_Fin (a b : R) : (Fin a <=? Fin b) = Rleb a b.
Proof.
  unfold nle, nlt, neq, Rltb, Rleb, Reqb.
  destruct (Rlt_dec a b), (Req_dec_T a b), (Rle_dec a b); simpl; (reflexivity || lra).
Qed.

Lemma nge_Fin (a b : R) : (Fin a >=? Fin b) = Rleb b a.
Proof. unfold nge; apply nle_Fin. Qed.

Lemma nmin_Fin (a b : R) : nmin (Fin a) (Fin b) = Fin (Rmin a b).
Proof.
  unfold nmin, nlt, Rltb, Rmin; simpl.
  destruct (Rlt_dec b a), (Rle_dec a b); f_equal; lra.
Qed.

Lemma nmax_Fin (a b : R) : nmax (Fin a) (Fin b) = Fin (Rmax a b).
Proof.
  unfold nmax, nlt, Rltb, Rmax; simpl.
  destruct (Rlt_dec a b), (Rle_dec a b); f_equal; lra.
Qed.

Lemma nor_Fin (a : R) (d : num) : a <> 0%R -> Fin a ||| d = Fin a.
Proof. intros Ha; unfold nor, truthy; apply Reqb_false in Ha; rewrite Ha; reflexivity. Qed.

Lemma nor_zero (d : num) : Fin 0 ||| d = d.
Proof.
  unfold nor, truthy.
  assert (H : Reqb 0 0 = true) by (apply Reqb_true; reflexivity).
  rewrite H; reflexivity.
Qed.

(** One step of evaluation on finite operands; divisions and roots need their
    side condition, which linear arithmetic over the context must settle. *)
Ltac fin_step :=
  first
    [ rewrite nadd_Fin | rewrite nsub_Fin | rewrite nmul_Fin
    | rewrite nexp_Fin | rewrite nmin_Fin | rewrite nmax_Fin
    | rewrite nlt_Fin | rewrite ngt_Fin | rewrite nle_Fin | rewrite nge_Fin
    | rewrite neq_Fin
    | rewrite ndiv_Fin by lra
    | rewrite nsqrt_Fin by lra
    | rewrite nlog10_Fin by lra ].

Ltac fin_eval := repeat fin_step.

(** ** NaN is absorbing, and every comparison with it is false *)

Lemma nmul_NaN_l (x : num) : NaN * x = NaN.
Proof. reflexivity. Qed.

Lemma nmul_NaN_r (x : num) : x * NaN = NaN.
Proof. destruct x; reflexivity. Qed.

Lemma ndiv_NaN_l (x : num) : NaN / x = NaN.
Proof. reflexivity. Qed.

Lemma ndiv_NaN_r (x : num) : x / NaN = NaN.
Proof. destruct x; reflexivity. Qed.

Lemma nlt_NaN_l (x : num) : (NaN <? x) = false.
Proof. reflexivity. Qed.

Lemma nlt_NaN_r (x : num) : (x <? NaN) = false.
Proof. destruct x; reflexivity. Qed.

Lemma ngt_NaN_l (x : num) : (NaN >? x) = false.
Proof. apply nlt_NaN_r. Qed.

Lemma ngt_NaN_r (x : num) : (x >? NaN) = false.
Proof. reflexivity. Qed.

Lemma neq_NaN_l (x : num) : (NaN === x) = false.
Proof. reflexivity. Qed.

Lemma neq_NaN_r (x : num) : (x === NaN) = false.
Proof. destruct x; reflexivity. Qed.

Lemma nle_NaN_l (x : num) : (NaN <=? x) = false.
Proof. reflexivity. Qed.

Lemma nle_NaN_r (x : num) : (x <=? NaN) = false.
Proof. unfold nle; rewrite nlt_NaN_r, neq_NaN_r; reflexivity. Qed.

Lemma nge_NaN_l (x : num) : (NaN >=? x) = false.
Proof. apply nle_NaN_r. Qed.

Lemma nge_NaN_r (x : num) : (x >=? NaN) = false.
Proof. reflexivity. Qed.

Create Rewrite HintDb nan.
#[local] Hint Rewrite nmul_NaN_l nmul_NaN_r ndiv_NaN_l ndiv_NaN_r
  nlt_NaN_l nlt_NaN_r ngt_NaN_l ngt_NaN_r neq_NaN_l neq_NaN_r
  nle_NaN_l nle_NaN_r nge_NaN_l nge_NaN_r : nan.

(** ** The table *)

Lemma ownProperty_cases (key : string) (c : ChemicalProperties) :
  ownProperty key chemicalDatabase = Some c ->
  In c [chlorine; ammonia; hydrogenSulfide; sulfurDioxide; methane;
        carbonMonoxide; benzene; ethyleneOxide; hydrogenCyanide; phosgene].
Proof.
  unfold chemicalDatabase; simpl.
  repeat match goal with
    | |- context [String.eqb key ?k] => destruct (String.eqb key k)
    end;
    intros H; inversion H; subst; simpl; tauto.
Qed.

Lemma get_own (key : string) (c : ChemicalProperties) :
  ownProperty key chemicalDatabase = Some c -> get key = Some c.
Proof. unfold get; intros ->; reflexivity. Qed.

Lemma ownProperty_regular (key : string) (c : ChemicalProperties) :
  ownProperty key chemicalDatabase = Some c -> regular c.
Proof.
  intros H; apply ownProperty_cases in H; simpl in H.
  repeat (destruct H as [<- | H]; [
    unfold regular; simpl;
    do 12 eexists; repeat (split; [reflexivity|]); lra |]).
  contradiction.
Qed.

Lemma get_cases (key : string) (c : ChemicalProperties) :
  get key = Some c ->
  ownProperty key chemicalDatabase = Some c \/ c = inheritedMember.
Proof.
  unfold get; destruct (ownProperty key chemicalDatabase).
  - intros H; left; exact H.
  - destruct (inheritedKey key); intros H; inversion H; right; reflexivity.
Qed.

Lemma convert_mg_m3_percent_entry
  (chemical : string) (c : ChemicalProperties) (mw v : R) :
  get (toLowerCase chemical) = Some c -> molecularWeight c = Fin mw -> (0 < mw)%R ->
  convertConcentrationUnit (Fin v) chemical mg_m3 percent
  = Fin (v * 24.45 / mw / 10000).
Proof.
  intros Hget Hmw Hpos.
  unfold convertConcentrationUnit; simpl; rewrite Hget, Hmw.
  fin_eval; reflexivity.
Qed.

(** ** What the operations compute on a regular entry

    The lemmas of this section hold for any name whose lookup yields a
    regular record; [ownProperty_regular] instantiates them at the table. *)

Section RegularEntry.

Variable chemical : string.
Variable c : ChemicalProperties.
Hypothesis Hget : get (toLowerCase chemical) = Some c.
Hypothesis Hreg : regular c.





End RegularEntry.

(** ** Unit conversion *)



(** ** Mass balance *)



(** ** Blast assessment *)

(** C6.  For chlorine, whose table entry has LEL = UEL = 0, both
    [flammabilityRisk] and [explosionRisk] are None at every concentration,
    temperature and pressure, in spite of its reactivity hazard of 3. *)
Theorem assessBlastPotential_chlorine
  (chemical : string) (concentration temperature : num) (pressure : option num) :
  toLowerCase chemical = "chlorine"%string ->
  lel chlorine = Fin 0 /\ uel chlorine = Fin 0 /\ reactivityHazard chlorine = Fin 3
  /\ flammabilityRisk (assessBlastPotential chemical concentration temperature pressure)
     = NoRisk
  /\ explosionRisk (assessBlastPotential chemical concentration temperature pressure)
     = NoRisk.
Proof.
  intros Hname.
  repeat (split; [reflexivity|]).
  unfold assessBlastPotential; rewrite Hname.
  change (get "chlorine") with (Some chlorine).
  cbn [lel uel chlorine].
  rewrite neq_Fin, Reqb_refl.
  split; reflexivity.
Qed.

Lemma assessBlastPotential_chlorine_witness :
  toLowerCase "Chlorine" = "chlorine"%string
  /\ flammabilityRisk (assessBlastPotential "Chlorine" (Fin 1000000) (Fin 150) (Some (Fin 3)))
     = NoRisk
  /\ explosionRisk (assessBlastPotential "Chlorine" (Fin 1000000) (Fin 150) (Some (Fin 3)))
     = NoRisk.
Proof.
  split; [reflexivity|].
  apply (assessBlastPotential_chlorine "Chlorine" (Fin 1000000) (Fin 150) (Some (Fin 3))).
  reflexivity.
Defined.




(** ** Leak detection *)

Lemma nlt_irrefl (x : num) : (x <? x) = false.
Proof.
  destruct x; try reflexivity.
  rewrite nlt_Fin; apply Rltb_false; lra.
Qed.

(** A measurement strictly between a threshold and its double: both are
    finite and the threshold is positive. *)
Lemma between_threshold_and_double (c t : num) :
  (c >? t) = true -> (c <? Fin 2 * t) = true ->
  exists cr tr : R, c = Fin cr /\ t = Fin tr /\ (0 < tr /\ tr < cr /\ cr < 2 * tr)%R.
Proof.
  unfold ngt; destruct c as [cr| | |], t as [tr| | |]; try discriminate.
  - rewrite nmul_Fin, !nlt_Fin; intros H1 H2; reflect_decisions.
    exists cr, tr; repeat split; try lra.
  - unfold nmul; simpl.
    destruct (Reqb 2 0) eqn:E2; [discriminate|].
    destruct (Rltb 0 2) eqn:E; reflect_decisions; [discriminate | lra].
  - unfold nmul; simpl.
    destruct (Reqb 2 0) eqn:E2; [discriminate|].
    destruct (Rltb 0 2) eqn:E; reflect_decisions; [discriminate | lra].
Qed.

(** C7.  For a chemical of the table: a measurement equal to the detection
    threshold is not a leak and has confidence 0; a measurement strictly above
    the threshold and below twice the threshold is a leak with confidence
    0.50; and the confidence is 0 whenever [isLeaking] is false. *)
Theorem detectLeakage_boundary
  (chemical : string) (c : ChemicalProperties) (concentration : num)
  (backgroundLevel thresholdMultiplier : option num) :
  ownProperty (toLowerCase chemical) chemicalDatabase = Some c ->
  let r := detectLeakage chemical concentration backgroundLevel thresholdMultiplier in
  (concentration = detectionThreshold r ->
   isLeaking r = false /\ confidence r = Fin 0)
  /\ ((concentration >? detectionThreshold r) = true ->
      (concentration <? Fin 2 * detectionThreshold r) = true ->
      isLeaking r = true /\ confidence r = Fin 0.5)
  /\ (isLeaking r = false -> confidence r = Fin 0).
Proof.
  intros Hown; apply get_own in Hown.
  unfold detectLeakage; rewrite Hown; cbv zeta.
  cbn [isLeaking confidence detectionThreshold].
  set (t := nmax _ _).
  split; [| split].
  - intros ->; unfold ngt; rewrite nlt_irrefl; split; reflexivity.
  - intros Habove Hbelow.
    destruct (between_threshold_and_double _ _ Habove Hbelow)
      as (cr & tr & -> & Ht & Hpos & Hlo & Hhi).
    rewrite Ht in *; rewrite Habove; split; [reflexivity|].
    assert (Hq : (cr / tr < 2)%R).
    { apply Rmult_lt_reg_r with tr; [lra|].
      unfold Rdiv; rewrite Rmult_assoc, Rinv_l; lra. }
    fin_eval; repeat decide_one; reflexivity.
  - intros ->; reflexivity.
Qed.

Lemma detectLeakage_boundary_witness :
  let r := detectLeakage "chlorine" (Fin 0.02) None None in
  ownProperty (toLowerCase "chlorine") chemicalDatabase = Some chlorine
  /\ (Fin 0.02 >? detectionThreshold r) = true
  /\ (Fin 0.02 <? Fin 2 * detectionThreshold r) = true
  /\ isLeaking r = true /\ confidence r = Fin 0.5.
Proof.
  assert (Ht : detectionThreshold (detectLeakage "chlorine" (Fin 0.02) None None)
               = Fin (Rmax (0.001 * 5) (0.01 * (0.5 * 70.91 / 24.45)))).
  { unfold detectLeakage.
    change (get (toLowerCase "chlorine")) with (Some chlorine).
    cbv zeta; cbn [detectionThreshold aegl1 chlorine defaultTo].
    unfold convertConcentrationUnit.
    change (get (toLowerCase "chlorine")) with (Some chlorine).
    cbn [ConcentrationUnit_eqb molecularWeight chlorine].
    rewrite nor_Fin by lra.
    fin_eval; reflexivity. }
  assert (Hmax : Rmax (0.001 * 5) (0.01 * (0.5 * 70.91 / 24.45))
                 = (0.01 * (0.5 * 70.91 / 24.45))%R)
    by (apply Rmax_right; lra).
  assert (Habove : (Fin 0.02 >? detectionThreshold
                                  (detectLeakage "chlorine" (Fin 0.02) None None)) = true).
  { rewrite Ht, Hmax, ngt_Fin; apply Rltb_true; lra. }
  assert (Hbelow : (Fin 0.02 <? Fin 2 * detectionThreshold
                                  (detectLeakage "chlorine" (Fin 0.02) None None)) = true).
  { rewrite Ht, Hmax, nmul_Fin, nlt_Fin; apply Rltb_true; lra. }
  cbv zeta; split; [reflexivity|].
  split; [exact Habove|]. split; [exact Hbelow|].
  exact (proj1 (proj2 (detectLeakage_boundary "chlorine" chlorine (Fin 0.02) None None
                         eq_refl)) Habove Hbelow).
Defined.

(** ** Stability class *)

Lemma calculateStabilityClass_day_clear_light_wind :
  calculateStabilityClass (Fin 2.5) (Fin 0) (Fin 1) = "A-B"%string.
Proof.
  unfold calculateStabilityClass; cbv zeta.
  repeat (fin_step || decide_one); reflexivity.
Qed.

(** C8, as stated, fails: by day, under a clear sky and a wind of 2.5 m/s the
    function returns the label A-B, which is none of the six classes. *)
Lemma calculateStabilityClass_intermediate_label :
  calculateStabilityClass (Fin 2.5) (Fin 0) (Fin 1) = "A-B"%string
  /\ ~ In (calculateStabilityClass (Fin 2.5) (Fin 0) (Fin 1)) pasquillGiffordClasses.
Proof.
  split; [exact calculateStabilityClass_day_clear_light_wind|].
  rewrite calculateStabilityClass_day_clear_light_wind.
  unfold pasquillGiffordClasses; simpl.
  intros H; repeat (destruct H as [H | H]; [discriminate H|]); exact H.
Qed.

(** C8 (as amended).  [calculateStabilityClass] is total and returns, for
    every wind speed, cloud cover and day/night flag, one of the six classes
    A to F or one of the three intermediate labels A-B, B-C, C-D; an
    intermediate label is returned only by day ([isDay === 1]) under a cloud
    cover below 70. *)
Theorem calculateStabilityClass_labels (windSpeed cloudCover isDay : num) :
  let s := calculateStabilityClass windSpeed cloudCover isDay in
  (In s pasquillGiffordClasses \/ In s intermediateClasses)
  /\ (In s intermediateClasses ->
      (isDay === Fin 1) = true /\ (cloudCover <? Fin 70) = true).
Proof.
  unfold calculateStabilityClass; cbv zeta.
  set (w := if windSpeed >? Fin 20 then windSpeed / Fin 3.6 else windSpeed).
  assert (Hcloud : (cloudCover <? Fin 40) = true -> (cloudCover <? Fin 70) = true).
  { destruct cloudCover; try discriminate; try reflexivity.
    rewrite !nlt_Fin; intros H; reflect_decisions; apply Rltb_true; lra. }
  unfold pasquillGiffordClasses, intermediateClasses.
  destruct (isDay === Fin 1);
    destruct (cloudCover <? Fin 40) eqn:H40;
    [ rewrite (Hcloud eq_refl) | | | ];
    repeat match goal with
      | |- context [if ?b then _ else _] => destruct b eqn:?
      end;
    simpl; split; try tauto;
    intros H; repeat (destruct H as [H | H]; [try discriminate H|]);
    try contradiction; auto.
Qed.

Lemma calculateStabilityClass_labels_witness :
  let s := calculateStabilityClass (Fin 2.5) (Fin 0) (Fin 1) in
  In s intermediateClasses
  /\ (Fin 1 === Fin 1) = true /\ (Fin 0 <? Fin 70) = true.
Proof.
  assert (Hin : In (calculateStabilityClass (Fin 2.5) (Fin 0) (Fin 1))
                   intermediateClasses).
  { rewrite calculateStabilityClass_day_clear_light_wind; simpl; auto. }
  cbv zeta; split; [exact Hin|].
  exact (proj2 (calculateStabilityClass_labels (Fin 2.5) (Fin 0) (Fin 1)) Hin).
Defined.

(** ** Dispersion zones *)

(** The zone concentrations are the [o?.aegl || default] expressions alone. *)
Lemma calculateDispersion_concentrations (params : ModelParameters) (random : R) :
  zoneConcentrations (calculateDispersion params random)
  = (optionalOr (get (toLowerCase (chemicalType params))) aegl3 (Fin 5),
     optionalOr (get (toLowerCase (chemicalType params))) aegl2 (Fin 3),
     optionalOr (get (toLowerCase (chemicalType params))) aegl1 (Fin 1)).
Proof. reflexivity. Qed.

(** C10.  The default zone concentrations 5/3/1 are used when the chemical is
    unknown and also whenever the AEGL value of a chemical of the table is 0:
    methane (all three AEGL values 0) gets red 5, orange 3, yellow 1, and
    phosgene (AEGL-1 0) gets yellow 1 while red 0.59 and orange 0.2 come from
    its AEGL-3 and AEGL-2. *)
Theorem calculateDispersion_default_concentrations
  (params : ModelParameters) (random : R) :
  let z := calculateDispersion params random in
  (get (toLowerCase (chemicalType params)) = None ->
   zoneConcentrations z = (Fin 5, Fin 3, Fin 1))
  /\ (forall c, ownProperty (toLowerCase (chemicalType params)) chemicalDatabase = Some c ->
      (aegl3 c = Fin 0 -> concentration (red z) = Fin 5)
      /\ (aegl2 c = Fin 0 -> concentration (orange z) = Fin 3)
      /\ (aegl1 c = Fin 0 -> concentration (yellow z) = Fin 1))
  /\ (toLowerCase (chemicalType params) = "methane"%string ->
      zoneConcentrations z = (Fin 5, Fin 3, Fin 1))
  /\ (toLowerCase (chemicalType params) = "phosgene"%string ->
      zoneConcentrations z = (Fin 0.59, Fin 0.2, Fin 1)).
Proof.
  cbv zeta; rewrite calculateDispersion_concentrations.
  unfold calculateDispersion; cbn [red orange yellow concentration].
  split; [| split; [| split]].
  - intros H; rewrite H; reflexivity.
  - intros c H; rewrite (get_own _ _ H); unfold optionalOr.
    repeat split; intros Hz; rewrite Hz; apply nor_zero.
  - intros H; rewrite H; change (get "methane") with (Some methane).
    unfold optionalOr; cbn [aegl1 aegl2 aegl3 methane]; rewrite !nor_zero; reflexivity.
  - intros H; rewrite H; change (get "phosgene") with (Some phosgene).
    unfold optionalOr; cbn [aegl1 aegl2 aegl3 phosgene].
    rewrite nor_zero, !nor_Fin by lra; reflexivity.
Qed.








Lemma calculateDispersion_default_concentrations_witness :
  zoneConcentrations (calculateDispersion (scenario "Methane" 10) 0.5)
  = (Fin 5, Fin 3, Fin 1)
  /\ zoneConcentrations (calculateDispersion (scenario "Phosgene" 10) 0.5)
     = (Fin 0.59, Fin 0.2, Fin 1).
Proof.
  split.
  - exact (proj1 (proj2 (proj2 (calculateDispersion_default_concentrations
                                  (scenario "Methane" 10) 0.5))) eq_refl).
  - exact (proj2 (proj2 (proj2 (calculateDispersion_default_concentrations
                                  (scenario "Phosgene" 10) 0.5))) eq_refl).
Defined.

(** C2 at the phosgene scenario: the red, orange and yellow concentrations
    are 0.59, 0.2 and 1, so the concentration rises from the orange to the
    yellow zone instead of decreasing. *)
Theorem calculateDispersion_phosgene_concentrations :
  let z := calculateDispersion (scenario "phosgene" 10) 0.5 in
  zoneConcentrations z = (Fin 0.59, Fin 0.2, Fin 1)
  /\ (concentration (orange z) >? concentration (yellow z)) = false
  /\ (concentration (red z) >? concentration (yellow z)) = false.
Proof.
  cbv zeta.
  assert (E : zoneConcentrations (calculateDispersion (scenario "phosgene" 10) 0.5)
              = (Fin 0.59, Fin 0.2, Fin 1)).
  { rewrite calculateDispersion_concentrations.
    change (get (toLowerCase (chemicalType (scenario "phosgene" 10))))
      with (Some phosgene).
    unfold optionalOr; cbn [aegl1 aegl2 aegl3 phosgene].
    rewrite nor_zero, !nor_Fin by lra; reflexivity. }
  split; [exact E|].
  change (concentration (red (calculateDispersion (scenario "phosgene" 10) 0.5)))
    with (fst (fst (zoneConcentrations
                      (calculateDispersion (scenario "phosgene" 10) 0.5)))).
  change (concentration (orange (calculateDispersion (scenario "phosgene" 10) 0.5)))
    with (snd (fst (zoneConcentrations
                      (calculateDispersion (scenario "phosgene" 10) 0.5)))).
  change (concentration (yellow (calculateDispersion (scenario "phosgene" 10) 0.5)))
    with (snd (zoneConcentrations
                 (calculateDispersion (scenario "phosgene" 10) 0.5))).
  rewrite E; cbn [fst snd].
  rewrite !ngt_Fin; split; apply Rltb_false; lra.
Qed.

(** An infinity times a positive number. *)
Lemma nmul_PInf_Fin (a : R) : (0 < a)%R -> PInf * Fin a = PInf.
Proof.
  intros Ha; unfold nmul; simpl.
  assert (H0 : Reqb a 0 = false) by (apply Reqb_false; lra).
  assert (H1 : Rltb 0 a = true) by (apply Rltb_true; lra).
  rewrite H0, H1; reflexivity.
Qed.

Lemma nmul_NInf_Fin (a : R) : (0 < a)%R -> NInf * Fin a = NInf.
Proof.
  intros Ha; unfold nmul; simpl.
  assert (H0 : Reqb a 0 = false) by (apply Reqb_false; lra).
  assert (H1 : Rltb 0 a = true) by (apply Rltb_true; lra).
  rewrite H0, H1; reflexivity.
Qed.

(** The zone distances are ordered whenever they are numbers: the three
    clamps are applied to 0.3, 0.6 and 1.0 times the same quantity. *)
Lemma clamped_distances_ordered (x : num) (rf : R) :
  (0 < rf)%R ->
  let r := nmax (Fin 0.5) (nmin (Fin 5) (x * Fin 0.3 * Fin rf)) in
  let o := nmax (Fin 1) (nmin (Fin 8) (x * Fin 0.6 * Fin rf)) in
  let y := nmax (Fin 1.5) (nmin (Fin 15) (x * Fin 1.0 * Fin rf)) in
  isNaN r = false -> (r <=? o) = true /\ (o <=? y) = true.
Proof.
  intros Hrf; cbv zeta; destruct x as [v| | |].
  - intros _; fin_eval; split; apply Rleb_true;
      unfold Rmin;
      repeat match goal with
        | |- context [Rle_dec ?a ?b] => destruct (Rle_dec a b)
        end;
      unfold Rmax;
      repeat match goal with
        | |- context [Rle_dec ?a ?b] => destruct (Rle_dec a b)
        end; lra.
  - intros _; rewrite !nmul_PInf_Fin by lra.
    change (nmin (Fin 5) PInf) with (Fin 5).
    change (nmin (Fin 8) PInf) with (Fin 8).
    change (nmin (Fin 15) PInf) with (Fin 15).
    fin_eval; rewrite !Rmax_right by lra.
    split; apply Rleb_true; lra.
  - intros _; rewrite !nmul_NInf_Fin by lra.
    change (nmin (Fin 5) NInf) with NInf.
    change (nmin (Fin 8) NInf) with NInf.
    change (nmin (Fin 15) NInf) with NInf.
    change (nmax (Fin 0.5) NInf) with (Fin 0.5).
    change (nmax (Fin 1) NInf) with (Fin 1).
    change (nmax (Fin 1.5) NInf) with (Fin 1.5).
    fin_eval; split; apply Rleb_true; lra.
  - intros H; discriminate H.
Qed.

Lemma calculateDispersion_distances_ordered (params : ModelParameters) (random : R) :
  (0 <= random < 1)%R ->
  let z := calculateDispersion params random in
  isNaN (distance (red z)) = false ->
  (distance (red z) <=? distance (orange z)) = true
  /\ (distance (orange z) <=? distance (yellow z)) = true.
Proof.
  intros Hu; unfold calculateDispersion; cbv zeta.
  cbn [red orange yellow distance].
  change (Fin 0.95 + Fin random * Fin 0.1) with (Fin (0.95 + random * 0.1)).
  apply clamped_distances_ordered; lra.
Qed.

(** ** Chemical names that are not in the table *)

(** When the lookup yields [undefined], the three operations return their
    neutral results. *)
Lemma undefined_chemical_neutral
  (chemical : string) (releaseRate duration temperature value concentration : num)
  (pressure containerVolume initialMass : option num)
  (fromUnit toUnit : ConcentrationUnit) :
  get (toLowerCase chemical) = None ->
  calculateMassBalance chemical releaseRate duration temperature
    pressure containerVolume initialMass = zeroMassBalance
  /\ convertConcentrationUnit value chemical fromUnit toUnit = value
  /\ explosionRisk (assessBlastPotential chemical concentration temperature pressure)
     = NoRisk
  /\ flammabilityRisk (assessBlastPotential chemical concentration temperature pressure)
     = NoRisk.
Proof.
  intros Hget.
  unfold calculateMassBalance, convertConcentrationUnit, assessBlastPotential.
  rewrite Hget.
  repeat split; try reflexivity.
  destruct (ConcentrationUnit_eqb fromUnit toUnit); reflexivity.
Qed.

(** The blast assessment is None/None for every name that is not a key of the
    table, the two inherited keys included. *)
Lemma assessBlastPotential_not_in_table
  (chemical : string) (concentration temperature : num) (pressure : option num) :
  ownProperty (toLowerCase chemical) chemicalDatabase = None ->
  explosionRisk (assessBlastPotential chemical concentration temperature pressure)
  = NoRisk
  /\ flammabilityRisk (assessBlastPotential chemical concentration temperature pressure)
     = NoRisk.
Proof.
  intros Hown.
  destruct (get (toLowerCase chemical)) as [c|] eqn:Hget.
  - destruct (get_cases _ _ Hget) as [H | ->]; [congruence|].
    unfold assessBlastPotential, convertConcentrationUnit; rewrite Hget.
    cbn [ConcentrationUnit_eqb molecularWeight lel uel reactivityHazard
         blastPotential inheritedMember].
    autorewrite with nan.
    split; reflexivity.
  - unfold assessBlastPotential; rewrite Hget; split; reflexivity.
Qed.

(** C9 at the name [constructor], which is not a key of the table: the lookup
    reaches [Object.prototype.constructor], the guard [!chemData] does not
    fire, and the mass balance reports the 600 kg released (with NaN for the
    vapor and pool masses) while the converter returns NaN instead of its
    input. *)
Theorem inherited_key_is_not_neutral :
  let m := calculateMassBalance "constructor" (Fin 10) (Fin 60) (Fin 25)
             None None None in
  ownProperty (toLowerCase "constructor") chemicalDatabase = None
  /\ totalReleased m = Fin 600
  /\ massReleaseRate m = Fin 10
  /\ vaporGenerated m = NaN
  /\ airborneRelease m = NaN
  /\ m <> zeroMassBalance
  /\ convertConcentrationUnit (Fin 5) "constructor" ppm mg_m3 = NaN
  /\ convertConcentrationUnit (Fin 5) "constructor" ppm mg_m3 <> Fin 5.
Proof.
  cbv zeta.
  split; [reflexivity|].
  assert (Ht : totalReleased
                 (calculateMassBalance "constructor" (Fin 10) (Fin 60) (Fin 25)
                    None None None) = Fin 600).
  { unfold calculateMassBalance.
    change (get (toLowerCase "constructor")) with (Some inheritedMember).
    cbv zeta; cbn [totalReleased]; fin_eval; f_equal; lra. }
  split; [exact Ht|].
  split; [reflexivity|].
  split; [reflexivity|].
  split; [reflexivity|].
  split; [intros H; rewrite H in Ht; cbn in Ht; inversion Ht; lra|].
  split; [reflexivity | discriminate].
Qed.

(** ** The worked scenarios of the specification *)

(** Scenario A: chlorine, 10 kg/min for 60 min at 25 C is released as gas. *)
Example scenario_A_chlorine_gas :
  let m := calculateMassBalance "chlorine" (Fin 10) (Fin 60) (Fin 25) None None None in
  totalReleased m = Fin 600 /\ vaporGenerated m = Fin 600
  /\ poolFormation m = Fin 0 /\ airborneRelease m = Fin 600.
Proof.
  unfold calculateMassBalance.
  change (get (toLowerCase "chlorine")) with (Some chlorine).
  cbv zeta; cbn [totalReleased vaporGenerated poolFormation airborneRelease
                 boilingPoint chlorine].
  repeat (fin_step || decide_one).
  rewrite Rmin_left by lra.
  repeat split; f_equal; lra.
Qed.

(** Scenario B: benzene, 10 kg/min for 10 min at 20 C: the vapor fraction is
    0.2 + 0.8 * 75 / 760, about 0.2789. *)
Example scenario_B_benzene_liquid :
  let m := calculateMassBalance "benzene" (Fin 10) (Fin 10) (Fin 20) None None None in
  totalReleased m = Fin 100
  /\ vaporGenerated m = Fin (100 * (0.2 + 0.8 * (75 / 760)))
  /\ poolFormation m = Fin (100 * (1 - (0.2 + 0.8 * (75 / 760))))
  /\ (27.89 < 100 * (0.2 + 0.8 * (75 / 760)) < 27.9)%R.
Proof.
  unfold calculateMassBalance.
  change (get (toLowerCase "benzene")) with (Some benzene).
  cbv zeta; cbn [totalReleased vaporGenerated poolFormation
                 boilingPoint vaporPressure benzene].
  repeat (fin_step || decide_one).
  replace (0.0555 * (20 - 20))%R with 0%R by lra.
  rewrite exp_0.
  rewrite (Rmax_right 0.1), (Rmin_right 1.0) by lra.
  repeat split; try (f_equal; lra); lra.
Qed.

(** Scenario C: chlorine measured at 0.1 mg/m3 over a background of 0.001
    with multiplier 5: the threshold is 0.01 * 0.5 * 70.91 / 24.45, about
    0.0145, the reading is a leak and the confidence is 0.85. *)
Example scenario_C_chlorine_leak :
  let r := detectLeakage "chlorine" (Fin 0.1) (Some (Fin 0.001)) (Some (Fin 5)) in
  detectionThreshold r = Fin (0.01 * (0.5 * 70.91 / 24.45))
  /\ (0.0145 < 0.01 * (0.5 * 70.91 / 24.45) < 0.0146)%R
  /\ isLeaking r = true /\ confidence r = Fin 0.85.
Proof.
  unfold detectLeakage, convertConcentrationUnit.
  change (get (toLowerCase "chlorine")) with (Some chlorine).
  cbv zeta; cbn [detectionThreshold isLeaking confidence aegl1 molecularWeight
                 chlorine defaultTo ConcentrationUnit_eqb].
  rewrite nor_Fin by lra.
  fin_eval.
  rewrite (Rmax_right (0.001 * 5)) by lra.
  assert (Hq : (6.8 < 0.1 / (0.01 * (0.5 * 70.91 / 24.45)) < 6.9)%R) by lra.
  repeat (fin_step || decide_one).
  repeat split; lra.
Qed.

(** * Further properties of the calculation core

    The remaining functions of the engine: what they guarantee on every
    input, how their results move with their arguments, and how they compose
    with one another. *)

(** ** More on numbers *)

Lemma nor_Fin_if (a : R) (d : num) : Fin a ||| d = if Reqb a 0 then d else Fin a.
Proof. unfold nor, truthy; destruct (Reqb a 0); reflexivity. Qed.

Lemma truthy_Fin (a : R) : truthy (Fin a) = negb (Reqb a 0).
Proof. reflexivity. Qed.

Lemma truthy_Fin_pos (a : R) : (0 < a)%R -> truthy (Fin a) = true.
Proof.
  intros Ha; unfold truthy; destruct (Reqb a 0) eqn:E; reflect_decisions;
    [lra | reflexivity].
Qed.

Lemma nmax_NaN_r (x : num) : nmax x NaN = NaN.
Proof. destruct x; reflexivity. Qed.

(** [Math.max] against a finite bound: NaN, +Infinity, or a number that is at
    least the bound. *)
Lemma nmax_floor (x : num) (v : R) :
  nmax x (Fin v) = NaN \/ nmax x (Fin v) = PInf
  \/ exists w : R, nmax x (Fin v) = Fin w /\ (v <= w)%R.
Proof.
  destruct x as [a| | |].
  - right; right; rewrite nmax_Fin; eexists; split; [reflexivity | apply Rmax_r].
  - right; left; reflexivity.
  - right; right; exists v; split; [reflexivity | lra].
  - left; reflexivity.
Qed.

(** Integer parts. *)
Lemma Int_part_le (x y : R) : (x <= y)%R -> (Int_part x <= Int_part y)%Z.
Proof.
  intros Hxy.
  destruct (base_Int_part x) as [Hx _], (base_Int_part y) as [_ Hy].
  assert (H : (IZR (Int_part x) < IZR (Int_part y + 1))%R)
    by (rewrite plus_IZR; lra).
  apply lt_IZR in H; lia.
Qed.

Lemma Int_part_below (x : R) (n : Z) : (x < IZR n + 1)%R -> (Int_part x <= n)%Z.
Proof.
  intros Hx; destruct (base_Int_part x) as [Hx' _].
  assert (H : (IZR (Int_part x) < IZR (n + 1))%R) by (rewrite plus_IZR; lra).
  apply lt_IZR in H; lia.
Qed.

Lemma Int_part_nonneg (x : R) : (0 <= x)%R -> (0 <= Int_part x)%Z.
Proof.
  intros Hx; destruct (base_Int_part x) as [_ Hx'].
  assert (H : (IZR (-1) < IZR (Int_part x))%R) by lra.
  apply lt_IZR in H; lia.
Qed.


Lemma nmax_Fin_l_cases (v : R) (x : num) :
  nmax (Fin v) x = NaN \/ nmax (Fin v) x = PInf
  \/ exists w : R, nmax (Fin v) x = Fin w /\ (v <= w)%R.
Proof.
  destruct x as [a| | |].
  - right; right; rewrite nmax_Fin; eexists; split; [reflexivity | apply Rmax_l].
  - right; left; reflexivity.
  - right; right; exists v; split; [reflexivity | lra].
  - left; reflexivity.
Qed.

Lemma npow_Fin_pos (b y : R) :
  (0 < b)%R -> y <> 0%R -> npow (Fin b) (Fin y) = Fin (Rpower b y).
Proof.
  intros Hb Hy; unfold npow.
  assert (H1 : Reqb y 0 = false) by (apply Reqb_false; exact Hy).
  assert (H2 : Reqb b 0 = false) by (apply Reqb_false; lra).
  assert (H3 : Rltb 0 b = true) by (apply Rltb_true; exact Hb).
  rewrite H1, H2, H3; reflexivity.
Qed.

Lemma Rpower_pos (b y : R) : (0 < Rpower b y)%R.
Proof. unfold Rpower; apply exp_pos. Qed.

Lemma Rpower_neg_antitone (x1 x2 y : R) :
  (0 < x1 <= x2)%R -> (y <= 0)%R -> (Rpower x2 y <= Rpower x1 y)%R.
Proof.
  intros Hx Hy; unfold Rpower.
  assert (Hln : (ln x1 <= ln x2)%R).
  { destruct (Req_dec x1 x2) as [-> | Hne]; [lra|].
    left; apply ln_increasing; lra. }
  destruct (Req_dec (y * ln x2) (y * ln x1)) as [-> | Hne]; [lra|].
  left; apply exp_increasing; nra.
Qed.



Lemma parseFloatToFixed_monotone (digits : nat) (x y : R) :
  (0 <= x <= y)%R ->
  exists vx vy : R,
    parseFloatToFixed digits (Fin x) = Fin vx
    /\ parseFloatToFixed digits (Fin y) = Fin vy
    /\ (0 <= vx <= vy)%R.
Proof.
  intros [Hx Hxy]; unfold parseFloatToFixed.
  rewrite !Rabs_right by lra.
  assert (Ex : Rltb x 0 = false) by (apply Rltb_false; lra).
  assert (Ey : Rltb y 0 = false) by (apply Rltb_false; lra).
  rewrite Ex, Ey.
  assert (HT : (0 < 10 ^ digits)%R) by (apply pow_lt; lra).
  set (T := (10 ^ digits)%R) in *.
  assert (Hnn : forall a : R, (0 <= a)%R ->
            (0 <= IZR (Int_part (a * T + / 2)) / T)%R).
  { intros a Ha; apply Rmult_le_pos; [| left; apply Rinv_0_lt_compat; exact HT].
    apply IZR_le, Int_part_nonneg; nra. }
  destruct (Rleb 1e21 x) eqn:Bx, (Rleb 1e21 y) eqn:By; reflect_decisions.
  - do 2 eexists; repeat split; [lra | lra].
  - exfalso; lra.
  - do 2 eexists; split; [reflexivity | split; [reflexivity | split; [apply Hnn; lra|]]].
    apply Rle_trans with (1e21)%R; [| lra].
    apply Rmult_le_reg_r with T; [exact HT|].
    unfold Rdiv; rewrite Rmult_assoc, Rinv_l, Rmult_1_r by lra.
    assert (EN : (1e21 * T)%R = IZR (10 ^ 21 * 10 ^ Z.of_nat digits)).
    { rewrite mult_IZR; unfold T; rewrite <- pow_IZR; f_equal; lra. }
    rewrite EN; apply IZR_le, Int_part_below; rewrite <- EN; nra.
  - do 2 eexists; split; [reflexivity | split; [reflexivity | split; [apply Hnn; lra|]]].
    unfold Rdiv; apply Rmult_le_compat_r; [left; apply Rinv_0_lt_compat; exact HT|].
    apply IZR_le, Int_part_le; nra.
Qed.

Lemma parseFloatToFixed_zero (digits : nat) : parseFloatToFixed digits (Fin 0) = Fin 0.
Proof.
  unfold parseFloatToFixed.
  rewrite Rabs_R0.
  assert (E1 : Rleb 1e21 0 = false) by (apply Rleb_false; lra).
  assert (E2 : Rltb 0 0 = false) by (apply Rltb_false; lra).
  rewrite E1, E2; f_equal.
  replace (0 * 10 ^ digits + / 2)%R with (/ 2)%R by ring.
  assert (E : Int_part (/ 2) = 0%Z).
  { symmetry; apply Int_part_spec; simpl; lra. }
  rewrite E; unfold Rdiv; simpl; ring.
Qed.

(** ** Unit conversion: composition *)



(** ** Mass balance: regimes and bounds *)

Lemma liquidVaporFraction_bounds (vp t : R) :
  (0.1 <= liquidVaporFraction vp t <= 1)%R.
Proof.
  unfold liquidVaporFraction; split.
  - apply Rmin_glb; [lra | apply Rmax_l].
  - eapply Rle_trans; [apply Rmin_l | lra].
Qed.

Lemma liquidVaporFraction_monotone (vp t1 t2 : R) :
  (0 <= vp)%R -> (t1 <= t2)%R ->
  (liquidVaporFraction vp t1 <= liquidVaporFraction vp t2)%R.
Proof.
  intros Hvp Ht; unfold liquidVaporFraction.
  assert (He : (exp (0.0555 * (t1 - 20)) <= exp (0.0555 * (t2 - 20)))%R).
  { destruct (Req_dec t1 t2) as [-> | Hne]; [lra|].
    left; apply exp_increasing; lra. }
  assert (Hx : (0.2 + 0.8 * (vp / 760) * exp (0.0555 * (t1 - 20))
                <= 0.2 + 0.8 * (vp / 760) * exp (0.0555 * (t2 - 20)))%R).
  { apply Rplus_le_compat_l, Rmult_le_compat_l; [lra | exact He]. }
  apply Rle_min_compat_l, Rle_max_compat_l; exact Hx.
Qed.

Section MassBalanceEntry.

Variable chemical : string.
Variable c : ChemicalProperties.
Hypothesis Hget : get (toLowerCase chemical) = Some c.
Hypothesis Hreg : regular c.

Lemma calculateMassBalance_gas
  (mw bp vp r d t : R) (pressure containerVolume initialMass : option num) :
  molecularWeight c = Fin mw -> boilingPoint c = Fin bp -> vaporPressure c = Fin vp ->
  (bp < t)%R ->
  let m := calculateMassBalance chemical (Fin r) (Fin d) (Fin t)
             pressure containerVolume initialMass in
  totalReleased m = Fin (r * d) /\ vaporGenerated m = Fin (r * d)
  /\ poolFormation m = Fin 0 /\ poolEvaporationRate m = Fin 0
  /\ poolEvaporation m = Fin 0 /\ airborneRelease m = Fin (r * d)
  /\ poolArea m = None /\ poolDuration m = None.
Proof.
  intros Hmw Hbp Hvp Hgas.
  unfold calculateMassBalance; rewrite Hget, Hmw, Hbp, Hvp; simpl.
  repeat (fin_step || decide_one).
  rewrite Rmin_left by lra.
  repeat split; try reflexivity; f_equal; lra.
Qed.

Lemma calculateMassBalance_liquid
  (mw bp vp r d t : R) (pressure containerVolume initialMass : option num) :
  molecularWeight c = Fin mw -> boilingPoint c = Fin bp -> vaporPressure c = Fin vp ->
  (0 < mw)%R -> (t <= bp)%R ->
  let m := calculateMassBalance chemical (Fin r) (Fin d) (Fin t)
             pressure containerVolume initialMass in
  let f := liquidVaporFraction vp t in
  let P := (r * d * (1 - f))%R in
  let rate :=
    if Rltb 0 P
    then Rmin (0.005 * (vp / 100) * sqrt (18 / mw) * exp (0.0555 * (t - 20)) * sqrt P)
              (P / 10)
    else 0%R in
  totalReleased m = Fin (r * d) /\ vaporGenerated m = Fin (r * d * f)
  /\ poolFormation m = Fin P /\ poolEvaporationRate m = Fin rate
  /\ poolEvaporation m = Fin (Rmin P (rate * d))
  /\ airborneRelease m = Fin (r * d * f + Rmin P (rate * d))
  /\ ((0 < P)%R -> (0 < rate * d)%R -> poolDuration m = Some (Fin (P / rate))).
Proof.
  intros Hmw Hbp Hvp Hpos Hliq.
  assert (Hq : (0 < 18 / mw)%R) by (apply Rdiv_lt_0_compat; lra).
  unfold calculateMassBalance, liquidVaporFraction;
    rewrite Hget, Hmw, Hbp, Hvp; simpl.
  repeat (fin_step || decide_one); repeat split; try reflexivity; intros HP Hrd.
  all: try (exfalso; lra).
  all: try (exfalso; pose proof (Rmin_glb_lt _ _ _ HP Hrd); lra).
  all: rewrite ndiv_Fin; [reflexivity | intros E; rewrite E, Rmult_0_l in Hrd; lra].
Qed.



Lemma vaporGenerated_temperature_entry
  (r d t1 t2 : R) (pressure containerVolume initialMass : option num) :
  (0 <= r)%R -> (0 <= d)%R -> (t1 <= t2)%R ->
  exists V1 V2 : R,
    vaporGenerated (calculateMassBalance chemical (Fin r) (Fin d) (Fin t1)
                      pressure containerVolume initialMass) = Fin V1
    /\ vaporGenerated (calculateMassBalance chemical (Fin r) (Fin d) (Fin t2)
                         pressure containerVolume initialMass) = Fin V2
    /\ (V1 <= V2)%R.
Proof.
  intros Hr Hd Ht.
  destruct Hreg as (mw & bp & vp & sg & l & u & a1 & a2 & a3 & e & rh & bl & Hmw & Hbp &
                    Hvp & _ & _ & _ & _ & _ & _ & _ & _ & _ & Hpos & Hvpos & _).
  assert (HT : (0 <= r * d)%R) by (apply Rmult_le_pos; assumption).
  pose proof (liquidVaporFraction_bounds vp t1) as Hf1.
  pose proof (liquidVaporFraction_bounds vp t2) as Hf2.
  assert (Hf : (liquidVaporFraction vp t1 <= liquidVaporFraction vp t2)%R)
    by (apply liquidVaporFraction_monotone; lra).
  destruct (Rlt_le_dec bp t1) as [Hgas1 | Hliq1];
    destruct (Rlt_le_dec bp t2) as [Hgas2 | Hliq2]; try lra.
  - destruct (calculateMassBalance_gas mw bp vp r d t1 pressure containerVolume
                initialMass Hmw Hbp Hvp Hgas1) as (_ & H1 & _).
    destruct (calculateMassBalance_gas mw bp vp r d t2 pressure containerVolume
                initialMass Hmw Hbp Hvp Hgas2) as (_ & H2 & _).
    rewrite H1, H2; do 2 eexists; repeat (split; [reflexivity|]); lra.
  - destruct (calculateMassBalance_liquid mw bp vp r d t1 pressure containerVolume
                initialMass Hmw Hbp Hvp Hpos Hliq1) as (_ & H1 & _).
    destruct (calculateMassBalance_gas mw bp vp r d t2 pressure containerVolume
                initialMass Hmw Hbp Hvp Hgas2) as (_ & H2 & _).
    rewrite H1, H2; do 2 eexists; repeat (split; [reflexivity|]); nra.
  - destruct (calculateMassBalance_liquid mw bp vp r d t1 pressure containerVolume
                initialMass Hmw Hbp Hvp Hpos Hliq1) as (_ & H1 & _).
    destruct (calculateMassBalance_liquid mw bp vp r d t2 pressure containerVolume
                initialMass Hmw Hbp Hvp Hpos Hliq2) as (_ & H2 & _).
    rewrite H1, H2; do 2 eexists; repeat (split; [reflexivity|]); nra.
Qed.

End MassBalanceEntry.



(** X3.  Above its boiling point a chemical of the table is released as a
    gas: the whole released mass is vapor and airborne, no pool forms, and
    neither a pool area nor a pool duration is reported. *)
Theorem calculateMassBalance_above_boiling_point
  (chemical : string) (c : ChemicalProperties) (bp r d t : R)
  (pressure containerVolume initialMass : option num) :
  ownProperty (toLowerCase chemical) chemicalDatabase = Some c ->
  boilingPoint c = Fin bp -> (bp < t)%R ->
  let m := calculateMassBalance chemical (Fin r) (Fin d) (Fin t)
             pressure containerVolume initialMass in
  totalReleased m = Fin (r * d) /\ vaporGenerated m = Fin (r * d)
  /\ poolFormation m = Fin 0 /\ poolEvaporationRate m = Fin 0
  /\ poolEvaporation m = Fin 0 /\ airborneRelease m = Fin (r * d)
  /\ poolArea m = None /\ poolDuration m = None.
Proof.
  intros Hown Hbp Hgas.
  destruct (ownProperty_regular _ _ Hown)
    as (mw & bp' & vp & sg & l & u & a1 & a2 & a3 & e & rh & bl & Hmw & _ & Hvp & _).
  apply (calculateMassBalance_gas chemical c (get_own _ _ Hown) mw bp vp r d t
           pressure containerVolume initialMass Hmw Hbp Hvp Hgas).
Qed.

Lemma calculateMassBalance_above_boiling_point_witness :
  let m := calculateMassBalance "chlorine" (Fin 10) (Fin 60) (Fin 20) None None None in
  totalReleased m = Fin (10 * 60) /\ vaporGenerated m = Fin (10 * 60)
  /\ poolFormation m = Fin 0 /\ poolEvaporationRate m = Fin 0
  /\ poolEvaporation m = Fin 0 /\ airborneRelease m = Fin (10 * 60)
  /\ poolArea m = None /\ poolDuration m = None.
Proof.
  apply (calculateMassBalance_above_boiling_point "chlorine" chlorine (-34.04) 10 60 20
           None None None); [reflexivity | reflexivity | lra].
Defined.

(** X4.  For a chemical of the table and a non-negative release rate and
    duration, the vapor generated does not decrease when the temperature
    rises. *)
Theorem vaporGenerated_monotone_in_temperature
  (chemical : string) (c : ChemicalProperties) (r d t1 t2 : R)
  (pressure containerVolume initialMass : option num) :
  ownProperty (toLowerCase chemical) chemicalDatabase = Some c ->
  (0 <= r)%R -> (0 <= d)%R -> (t1 <= t2)%R ->
  exists V1 V2 : R,
    vaporGenerated (calculateMassBalance chemical (Fin r) (Fin d) (Fin t1)
                      pressure containerVolume initialMass) = Fin V1
    /\ vaporGenerated (calculateMassBalance chemical (Fin r) (Fin d) (Fin t2)
                         pressure containerVolume initialMass) = Fin V2
    /\ (V1 <= V2)%R.
Proof.
  intros Hown.
  apply (vaporGenerated_temperature_entry chemical c (get_own _ _ Hown)
           (ownProperty_regular _ _ Hown)).
Qed.

Lemma vaporGenerated_monotone_in_temperature_witness :
  exists V1 V2 : R,
    vaporGenerated (calculateMassBalance "benzene" (Fin 10) (Fin 10) (Fin 5)
                      None None None) = Fin V1
    /\ vaporGenerated (calculateMassBalance "benzene" (Fin 10) (Fin 10) (Fin 90)
                         None None None) = Fin V2
    /\ (V1 <= V2)%R.
Proof.
  apply (vaporGenerated_monotone_in_temperature "benzene" benzene 10 10 5 90
           None None None); [reflexivity | lra | lra | lra].
Defined.




(** ** Leak detection: threshold, monotonicity, names outside the table *)

Section LeakDetectionEntry.

Variable chemical : string.
Variable c : ChemicalProperties.
Hypothesis Hget : get (toLowerCase chemical) = Some c.
Hypothesis Hreg : regular c.

Lemma detectionThreshold_entry
  (mw a1 : R) (concentration : num) (backgroundLevel thresholdMultiplier : option num) :
  molecularWeight c = Fin mw -> aegl1 c = Fin a1 -> (0 < mw)%R ->
  detectionThreshold (detectLeakage chemical concentration backgroundLevel
                        thresholdMultiplier)
  = nmax (defaultTo backgroundLevel (Fin 0.001) * defaultTo thresholdMultiplier (Fin 5))
         (Fin (0.01 * (thresholdAegl1 a1 * mw / 24.45))).
Proof.
  intros Hmw Ha1 Hpos.
  unfold detectLeakage; rewrite Hget; cbv zeta; cbn [detectionThreshold].
  unfold convertConcentrationUnit; rewrite Hget; cbn [ConcentrationUnit_eqb].
  rewrite Hmw, Ha1, nor_Fin_if; unfold thresholdAegl1.
  destruct (Reqb a1 0); fin_eval; reflexivity.
Qed.

Lemma detectLeakage_confidence_monotone_entry
  (c1 c2 : R) (backgroundLevel thresholdMultiplier : option num) :
  (c1 <= c2)%R ->
  let r1 := detectLeakage chemical (Fin c1) backgroundLevel thresholdMultiplier in
  let r2 := detectLeakage chemical (Fin c2) backgroundLevel thresholdMultiplier in
  (isLeaking r1 = true -> isLeaking r2 = true)
  /\ (confidence r1 <=? confidence r2) = true.
Proof.
  intros Hle.
  destruct Hreg as (mw & bp & vp & sg & l & u & a1 & a2 & a3 & e & rh & bl & Hmw & _ & _ &
                    _ & _ & _ & Ha1 & Ha2 & Ha3 & _ & _ & _ & Hpos & _ & _ & Ha1pos & _).
  unfold detectLeakage; rewrite Hget; cbv zeta; cbn [isLeaking confidence].
  unfold convertConcentrationUnit; rewrite Hget; cbn [ConcentrationUnit_eqb].
  rewrite Hmw, Ha1, !nor_Fin_if.
  assert (Hprod : (0 < thresholdAegl1 a1 * mw)%R).
  { unfold thresholdAegl1; destruct (Reqb a1 0) eqn:E1; reflect_decisions;
      apply Rmult_lt_0_compat; lra. }
  unfold thresholdAegl1 in Hprod.
  destruct (Reqb a1 0) eqn:E1; reflect_decisions; fin_eval.
  all: match goal with
       | |- context [nmax ?x (Fin ?v)] =>
           destruct (nmax_floor x v) as [-> | [-> | (w & -> & Hw)]]
       end.
  all: try (cbv [ngt nlt]; cbv beta iota;
            split; [intros H; discriminate H | rewrite nle_Fin; apply Rleb_true; lra]).
  all: assert (Hwpos : (0 < w)%R) by lra.
  all: assert (Hq : (c1 / w <= c2 / w)%R)
         by (apply Rmult_le_compat_r; [left; apply Rinv_0_lt_compat; lra | lra]).
  all: repeat (fin_step || decide_one); split; try reflexivity; try discriminate;
       try (apply Rleb_true; lra).
Qed.

Lemma detectLeakage_severity_monotone_entry
  (c1 c2 : R) (backgroundLevel thresholdMultiplier : option num) :
  (c1 <= c2)%R ->
  let r1 := detectLeakage chemical (Fin c1) backgroundLevel thresholdMultiplier in
  let r2 := detectLeakage chemical (Fin c2) backgroundLevel thresholdMultiplier in
  RiskLevel_le (severityLevel r1) (severityLevel r2)
  /\ (timeToAction r2 <=? timeToAction r1) = true.
Proof.
  intros Hle.
  destruct Hreg as (mw & bp & vp & sg & l & u & a1 & a2 & a3 & e & rh & bl & Hmw & _ & _ &
                    _ & _ & _ & Ha1 & Ha2 & Ha3 & _ & _ & _ & Hpos & _ & _ & Ha1pos & _).
  unfold detectLeakage; rewrite Hget; cbv zeta; cbn [severityLevel timeToAction].
  unfold convertConcentrationUnit; rewrite Hget; cbn [ConcentrationUnit_eqb].
  rewrite Hmw, Ha1, Ha2, Ha3, !nor_Fin_if.
  unfold RiskLevel_le.
  destruct (Reqb a1 0) eqn:E1, (Reqb a2 0) eqn:E2, (Reqb a3 0) eqn:E3;
    reflect_decisions; fin_eval.
  all: match goal with
       | |- context [nmax ?x (Fin ?v)] =>
           destruct (nmax_floor x v) as [-> | [-> | (w & -> & Hw)]]
       end.
  all: try (cbv [ngt nlt]; cbv beta iota; cbn [riskRank];
            split; [apply le_n | rewrite nle_Fin; apply Rleb_true; lra]).
  all: repeat (fin_step || decide_one); cbn [riskRank]; split;
       try (apply Rleb_true; lra); repeat constructor.
Qed.

End LeakDetectionEntry.

(** X6.  For a chemical of the table, a reading that is zero or negative is
    never reported as a leak, whatever background level and threshold
    multiplier are passed: the detection threshold is NaN, infinite, or at
    least one hundredth of the AEGL-1 concentration, which is positive. *)
Theorem detectLeakage_nonpositive_reading
  (chemical : string) (c : ChemicalProperties) (v : R)
  (backgroundLevel thresholdMultiplier : option num) :
  ownProperty (toLowerCase chemical) chemicalDatabase = Some c ->
  (v <= 0)%R ->
  let r := detectLeakage chemical (Fin v) backgroundLevel thresholdMultiplier in
  isLeaking r = false /\ confidence r = Fin 0 /\ severityLevel r = NoRisk
  /\ exceedsFactor r = Fin 0 /\ timeToAction r = Fin 60.
Proof.
  intros Hown Hv; cbv zeta.
  pose proof (get_own _ _ Hown) as Hget.
  destruct (ownProperty_regular _ _ Hown)
    as (mw & bp & vp & sg & l & u & a1 & a2 & a3 & e & rh & bl & Hmw & _ & _ &
        _ & _ & _ & Ha1 & _ & _ & _ & _ & _ & Hpos & _ & _ & Ha1pos & _).
  assert (Hleak : isLeaking (detectLeakage chemical (Fin v) backgroundLevel
                               thresholdMultiplier) = false).
  { pose proof (detectionThreshold_entry chemical c Hget mw a1 (Fin v)
                  backgroundLevel thresholdMultiplier Hmw Ha1 Hpos) as Hth.
    assert (Hfloor : (0 < 0.01 * (thresholdAegl1 a1 * mw / 24.45))%R).
    { assert (0 < thresholdAegl1 a1)%R
        by (unfold thresholdAegl1; destruct (Reqb a1 0) eqn:E;
            reflect_decisions; lra).
      assert (0 < thresholdAegl1 a1 * mw)%R by (apply Rmult_lt_0_compat; lra).
      lra. }
    unfold detectLeakage in *; rewrite Hget in *; cbv zeta in *.
    cbn [isLeaking detectionThreshold] in *.
    rewrite Hth.
    destruct (nmax_floor
                (defaultTo backgroundLevel (Fin 0.001)
                 * defaultTo thresholdMultiplier (Fin 5))
                (0.01 * (thresholdAegl1 a1 * mw / 24.45)))
      as [-> | [-> | (w & -> & Hw)]]; try reflexivity.
    rewrite ngt_Fin; apply Rltb_false; lra. }
  revert Hleak.
  unfold detectLeakage; rewrite Hget; cbv zeta.
  cbn [isLeaking confidence severityLevel exceedsFactor timeToAction].
  intros ->; repeat split; reflexivity.
Qed.

Lemma detectLeakage_nonpositive_reading_witness :
  let r := detectLeakage "chlorine" (Fin 0) (Some (Fin (-1))) (Some (Fin 5)) in
  isLeaking r = false /\ confidence r = Fin 0 /\ severityLevel r = NoRisk
  /\ exceedsFactor r = Fin 0 /\ timeToAction r = Fin 60.
Proof.
  apply (detectLeakage_nonpositive_reading "chlorine" chlorine 0
           (Some (Fin (-1))) (Some (Fin 5))); [reflexivity | lra].
Defined.

(** X7.  For a chemical of the table, with background level and threshold
    multiplier fixed, a higher reading keeps a reported leak reported and
    does not lower the confidence. *)
Theorem detectLeakage_confidence_monotone
  (chemical : string) (c : ChemicalProperties) (c1 c2 : R)
  (backgroundLevel thresholdMultiplier : option num) :
  ownProperty (toLowerCase chemical) chemicalDatabase = Some c ->
  (c1 <= c2)%R ->
  let r1 := detectLeakage chemical (Fin c1) backgroundLevel thresholdMultiplier in
  let r2 := detectLeakage chemical (Fin c2) backgroundLevel thresholdMultiplier in
  (isLeaking r1 = true -> isLeaking r2 = true)
  /\ (confidence r1 <=? confidence r2) = true.
Proof.
  intros Hown.
  apply (detectLeakage_confidence_monotone_entry chemical c (get_own _ _ Hown)
           (ownProperty_regular _ _ Hown)).
Qed.

Lemma detectLeakage_confidence_monotone_witness :
  let r1 := detectLeakage "chlorine" (Fin 0.02) None None in
  let r2 := detectLeakage "chlorine" (Fin 3) None None in
  (isLeaking r1 = true -> isLeaking r2 = true)
  /\ (confidence r1 <=? confidence r2) = true.
Proof.
  apply (detectLeakage_confidence_monotone "chlorine" chlorine 0.02 3 None None);
    [reflexivity | lra].
Defined.

(** X8.  For a chemical of the table, with background level and threshold
    multiplier fixed, a higher reading does not lower the severity level and
    does not lengthen the time to action. *)
Theorem detectLeakage_severity_monotone
  (chemical : string) (c : ChemicalProperties) (c1 c2 : R)
  (backgroundLevel thresholdMultiplier : option num) :
  ownProperty (toLowerCase chemical) chemicalDatabase = Some c ->
  (c1 <= c2)%R ->
  let r1 := detectLeakage chemical (Fin c1) backgroundLevel thresholdMultiplier in
  let r2 := detectLeakage chemical (Fin c2) backgroundLevel thresholdMultiplier in
  RiskLevel_le (severityLevel r1) (severityLevel r2)
  /\ (timeToAction r2 <=? timeToAction r1) = true.
Proof.
  intros Hown.
  apply (detectLeakage_severity_monotone_entry chemical c (get_own _ _ Hown)
           (ownProperty_regular _ _ Hown)).
Qed.

Lemma detectLeakage_severity_monotone_witness :
  let r1 := detectLeakage "chlorine" (Fin 0.02) None None in
  let r2 := detectLeakage "chlorine" (Fin 3) None None in
  RiskLevel_le (severityLevel r1) (severityLevel r2)
  /\ (timeToAction r2 <=? timeToAction r1) = true.
Proof.
  apply (detectLeakage_severity_monotone "chlorine" chlorine 0.02 3 None None);
    [reflexivity | lra].
Defined.

(** X9.  For every name that is not a key of the table, the names
    [constructor] and [__proto__] that the lookup inherits included,
    [detectLeakage] reports no leak: confidence 0, severity None and the
    routine 60 minutes to action, for every reading. *)
Theorem detectLeakage_not_in_table
  (chemical : string) (concentration : num)
  (backgroundLevel thresholdMultiplier : option num) :
  ownProperty (toLowerCase chemical) chemicalDatabase = None ->
  let r := detectLeakage chemical concentration backgroundLevel thresholdMultiplier in
  isLeaking r = false /\ confidence r = Fin 0 /\ severityLevel r = NoRisk
  /\ timeToAction r = Fin 60.
Proof.
  intros Hown.
  destruct (get (toLowerCase chemical)) as [c|] eqn:Hget.
  - destruct (get_cases _ _ Hget) as [H | ->]; [congruence|].
    unfold detectLeakage, convertConcentrationUnit; rewrite Hget.
    cbv zeta; cbn [ConcentrationUnit_eqb molecularWeight aegl1 inheritedMember
                   isLeaking confidence severityLevel timeToAction].
    change (NaN ||| Fin 1) with (Fin 1).
    rewrite nmul_NaN_r, ndiv_NaN_l, nmul_NaN_r, nmax_NaN_r.
    repeat split; reflexivity.
  - unfold detectLeakage; rewrite Hget; repeat split; reflexivity.
Qed.

Lemma detectLeakage_not_in_table_witness :
  let r := detectLeakage "Constructor" (Fin 1000000) None None in
  isLeaking r = false /\ confidence r = Fin 0 /\ severityLevel r = NoRisk
  /\ timeToAction r = Fin 60.
Proof.
  apply (detectLeakage_not_in_table "Constructor" (Fin 1000000) None None).
  reflexivity.
Defined.

(** ** Blast assessment: temperature, pressure, and the two risk scales *)

(** X10.  With chemical and concentration fixed, raising the temperature or
    the pressure leaves [flammabilityRisk] unchanged and never lowers
    [explosionRisk]. *)
Theorem assessBlastPotential_temperature_pressure
  (chemical : string) (concentration : num) (T1 T2 P1 P2 : R) :
  (T1 <= T2)%R -> (P1 <= P2)%R ->
  let a1 := assessBlastPotential chemical concentration (Fin T1) (Some (Fin P1)) in
  let a2 := assessBlastPotential chemical concentration (Fin T2) (Some (Fin P2)) in
  flammabilityRisk a1 = flammabilityRisk a2
  /\ RiskLevel_le (explosionRisk a1) (explosionRisk a2).
Proof.
  intros HT HP.
  unfold assessBlastPotential.
  destruct (get (toLowerCase chemical)) as [c|]; [| split; [reflexivity | apply le_n]].
  cbv zeta; cbn [flammabilityRisk explosionRisk defaultTo].
  split; [reflexivity|].
  match goal with
  | |- context [RiskLevel_eqb ?b NoRisk] => generalize b
  end.
  intros b; unfold RiskLevel_le.
  rewrite !ndiv_Fin by lra.
  fin_eval.
  destruct b; cbn [RiskLevel_eqb negb];
    repeat decide_one; cbn [raiseRiskLevel riskRank]; repeat constructor.
Qed.

Lemma assessBlastPotential_temperature_pressure_witness :
  let a1 := assessBlastPotential "methane" (Fin 40000) (Fin 20) (Some (Fin 1)) in
  let a2 := assessBlastPotential "methane" (Fin 40000) (Fin 120) (Some (Fin 3)) in
  flammabilityRisk a1 = flammabilityRisk a2
  /\ RiskLevel_le (explosionRisk a1) (explosionRisk a2).
Proof.
  apply (assessBlastPotential_temperature_pressure "methane" (Fin 40000) 20 120 1 3);
    lra.
Defined.

Section BlastEntry.

Variable chemical : string.
Variable c : ChemicalProperties.
Hypothesis Hget : get (toLowerCase chemical) = Some c.
Hypothesis Hreg : regular c.

Lemma explosionRisk_at_most_two_above_entry
  (v : R) (temperature : num) (pressure : option num) :
  let a := assessBlastPotential chemical (Fin v) temperature pressure in
  (riskRank (explosionRisk a) <= riskRank (flammabilityRisk a) + 2)%nat
  /\ ((temperature >? Fin 50) = false ->
      (defaultTo pressure (Fin 1.0) / Fin 1.0 >? Fin 2) = false ->
      RiskLevel_le (explosionRisk a) (flammabilityRisk a)).
Proof.
  destruct Hreg as (mw & bp & vp & sg & l & u & a1 & a2 & a3 & e & rh & bl & Hmw & _ & _ &
                    _ & Hl & Hu & _ & _ & _ & _ & Hrh & Hbl & Hpos & _ & _ & _ & _ & _ &
                    Hlu).
  unfold assessBlastPotential; rewrite Hget.
  rewrite !(convert_mg_m3_percent_entry _ _ _ _ Hget Hmw Hpos), Hl, Hu, Hrh, Hbl.
  cbv zeta; cbn [flammabilityRisk explosionRisk].
  set (hot := temperature >? Fin 50).
  set (veryHot := temperature >? Fin 100).
  set (pressed := defaultTo pressure (Fin 1.0) / Fin 1.0 >? Fin 1.2).
  set (veryPressed := defaultTo pressure (Fin 1.0) / Fin 1.0 >? Fin 2).
  set (p := (v * 24.45 / mw / 10000)%R).
  unfold RiskLevel_le.
  assert (Hvery : veryHot = true -> hot = true).
  { unfold veryHot, hot, ngt; destruct temperature as [t| | |]; try discriminate;
      try reflexivity.
    rewrite !nlt_Fin; intros H; reflect_decisions; apply Rltb_true; lra. }
  destruct Hlu as [[-> ->] | [Hl0 Hlu]].
  - fin_eval; rewrite Reqb_refl; cbn; split; [repeat constructor | intros _ _; apply le_n].
  - fin_eval.
    destruct hot eqn:Ehot, veryHot eqn:Every, pressed, veryPressed;
      try (specialize (Hvery eq_refl); discriminate Hvery);
      repeat decide_one; cbn; split;
      try (intros H1 H2; try discriminate H1; try discriminate H2);
      repeat constructor.
Qed.

End BlastEntry.

(** X11.  For a chemical of the table and a finite concentration,
    [explosionRisk] is at most two levels above [flammabilityRisk], and not
    above it at all unless the temperature exceeds 50 C or the pressure
    2 atm. *)
Theorem explosionRisk_at_most_two_above
  (chemical : string) (c : ChemicalProperties) (v : R) (temperature : num)
  (pressure : option num) :
  ownProperty (toLowerCase chemical) chemicalDatabase = Some c ->
  let a := assessBlastPotential chemical (Fin v) temperature pressure in
  (riskRank (explosionRisk a) <= riskRank (flammabilityRisk a) + 2)%nat
  /\ ((temperature >? Fin 50) = false ->
      (defaultTo pressure (Fin 1.0) / Fin 1.0 >? Fin 2) = false ->
      RiskLevel_le (explosionRisk a) (flammabilityRisk a)).
Proof.
  intros Hown.
  apply (explosionRisk_at_most_two_above_entry chemical c (get_own _ _ Hown)
           (ownProperty_regular _ _ Hown)).
Qed.

Lemma explosionRisk_at_most_two_above_witness :
  let a := assessBlastPotential "methane" (Fin 40000) (Fin 120) (Some (Fin 3)) in
  (riskRank (explosionRisk a) <= riskRank (flammabilityRisk a) + 2)%nat.
Proof.
  apply (explosionRisk_at_most_two_above "methane" methane 40000 (Fin 120)
           (Some (Fin 3))).
  reflexivity.
Defined.

(** ** Dispersion zones: bounds on the distances *)

Lemma clamped_distances_cases (x : num) (rf : R) :
  (0 < rf)%R ->
  let r := nmax (Fin 0.5) (nmin (Fin 5) (x * Fin 0.3 * Fin rf)) in
  let o := nmax (Fin 1) (nmin (Fin 8) (x * Fin 0.6 * Fin rf)) in
  let y := nmax (Fin 1.5) (nmin (Fin 15) (x * Fin 1.0 * Fin rf)) in
  (r = NaN /\ o = NaN /\ y = NaN)
  \/ exists vr vo vy : R,
       r = Fin vr /\ o = Fin vo /\ y = Fin vy
       /\ (0.5 <= vr <= 5 /\ 1 <= vo <= 8 /\ 1.5 <= vy <= 15 /\ vr <= vo <= vy)%R.
Proof.
  intros Hrf; cbv zeta; destruct x as [v| | |].
  - right; fin_eval; do 3 eexists; repeat (split; [reflexivity|]).
    unfold Rmin;
      repeat match goal with
        | |- context [Rle_dec ?a ?b] => destruct (Rle_dec a b)
        end;
      unfold Rmax;
      repeat match goal with
        | |- context [Rle_dec ?a ?b] => destruct (Rle_dec a b)
        end; lra.
  - right; rewrite !nmul_PInf_Fin by lra.
    change (nmin (Fin 5) PInf) with (Fin 5).
    change (nmin (Fin 8) PInf) with (Fin 8).
    change (nmin (Fin 15) PInf) with (Fin 15).
    fin_eval; rewrite !Rmax_right by lra.
    do 3 eexists; repeat (split; [reflexivity|]); lra.
  - right; rewrite !nmul_NInf_Fin by lra.
    exists 0.5%R, 1%R, 1.5%R; repeat (split; [reflexivity|]); lra.
  - left; repeat split; reflexivity.
Qed.

Lemma calculateDispersion_distances_cases (params : ModelParameters) (random : R) :
  (0 <= random < 1)%R ->
  let z := calculateDispersion params random in
  (distance (red z) = NaN /\ distance (orange z) = NaN /\ distance (yellow z) = NaN)
  \/ exists vr vo vy : R,
       distance (red z) = Fin vr /\ distance (orange z) = Fin vo
       /\ distance (yellow z) = Fin vy
       /\ (0.5 <= vr <= 5 /\ 1 <= vo <= 8 /\ 1.5 <= vy <= 15 /\ vr <= vo <= vy)%R.
Proof.
  intros Hu; unfold calculateDispersion; cbv zeta.
  cbn [red orange yellow distance].
  change (Fin 0.95 + Fin random * Fin 0.1) with (Fin (0.95 + random * 0.1)).
  apply clamped_distances_cases; lra.
Qed.

(** X12.  For every scenario and every draw of [Math.random()], the three zone
    distances are either all NaN or all finite, and then the red distance lies
    in [0.5, 5] km, the orange one in [1, 8] km, the yellow one in
    [1.5, 15] km, and red <= orange <= yellow. *)
Theorem calculateDispersion_distances_bounds (params : ModelParameters) (random : R) :
  (0 <= random < 1)%R ->
  let z := calculateDispersion params random in
  (distance (red z) = NaN /\ distance (orange z) = NaN /\ distance (yellow z) = NaN)
  \/ exists vr vo vy : R,
       distance (red z) = Fin vr /\ distance (orange z) = Fin vo
       /\ distance (yellow z) = Fin vy
       /\ (0.5 <= vr <= 5 /\ 1 <= vo <= 8 /\ 1.5 <= vy <= 15 /\ vr <= vo <= vy)%R.
Proof. apply calculateDispersion_distances_cases. Qed.

Lemma calculateDispersion_distances_bounds_witness :
  let z := calculateDispersion (scenario "chlorine" 25) 0.5 in
  (distance (red z) = NaN /\ distance (orange z) = NaN /\ distance (yellow z) = NaN)
  \/ exists vr vo vy : R,
       distance (red z) = Fin vr /\ distance (orange z) = Fin vo
       /\ distance (yellow z) = Fin vy
       /\ (0.5 <= vr <= 5 /\ 1 <= vo <= 8 /\ 1.5 <= vy <= 15 /\ vr <= vo <= vy)%R.
Proof.
  apply (calculateDispersion_distances_bounds (scenario "chlorine" 25) 0.5); lra.
Defined.

(** ** Weather impact *)





Lemma calculateDispersion_intermediate_label
  (params : ModelParameters) (w : weatherImpact.t) (random : R) :
  In (weatherImpact.stabilityClass w) intermediateClasses ->
  calculateDispersion (withWeatherImpact params (Some w)) random
  = calculateDispersion (withWeatherImpact params (Some (withClassD w))) random.
Proof.
  unfold intermediateClasses; simpl.
  intros [H | [H | [H | []]]];
    unfold calculateDispersion, withWeatherImpact, withClassD; simpl;
    rewrite <- H; reflexivity.
Qed.

Lemma calculateWeatherImpact_clearDayLightWind :
  weatherImpact.stabilityClass (calculateWeatherImpact clearDayLightWind) = "A-B"%string
  /\ weatherImpact.dispersionMultiplier (calculateWeatherImpact clearDayLightWind)
     = Fin (0.8 * 1.3 * 1.0).
Proof.
  unfold calculateWeatherImpact, clearDayLightWind.
  cbn [WeatherData.windSpeed WeatherData.cloudCover WeatherData.isDay
       WeatherData.precipitation truthyValue].
  assert (H1 : truthy (Fin 2.5) = true).
  { unfold truthy; destruct (Reqb 2.5 0) eqn:E; reflect_decisions; [lra | reflexivity]. }
  assert (H2 : truthy (Fin 0) = false).
  { unfold truthy; rewrite Reqb_refl; reflexivity. }
  rewrite H1, H2; cbv zeta.
  cbn [weatherImpact.stabilityClass weatherImpact.dispersionMultiplier].
  rewrite calculateStabilityClass_day_clear_light_wind.
  cbn [charAt0 String.eqb Ascii.eqb Bool.eqb].
  repeat (fin_step || decide_one); split; reflexivity.
Qed.

(** X14.  When [calculateWeatherImpact] returns one of the labels A-B, B-C or
    C-D, [calculateDispersion] run with that weather impact gives the result
    it gives with the label replaced by the neutral D: the intermediate
    labels have no case in [getStabilityFactor]. *)
Theorem weather_intermediate_class_is_neutral
  (weatherData : WeatherData.t) (params : ModelParameters) (random : R) :
  let w := calculateWeatherImpact weatherData in
  In (weatherImpact.stabilityClass w) intermediateClasses ->
  calculateDispersion (withWeatherImpact params (Some w)) random
  = calculateDispersion (withWeatherImpact params (Some (withClassD w))) random.
Proof. cbv zeta; apply calculateDispersion_intermediate_label. Qed.

Lemma weather_intermediate_class_is_neutral_witness :
  calculateDispersion
    (withWeatherImpact (scenario "chlorine" 25)
       (Some (calculateWeatherImpact clearDayLightWind))) 0.5
  = calculateDispersion
      (withWeatherImpact (scenario "chlorine" 25)
         (Some (withClassD (calculateWeatherImpact clearDayLightWind)))) 0.5.
Proof.
  apply (weather_intermediate_class_is_neutral clearDayLightWind
           (scenario "chlorine" 25) 0.5).
  rewrite (proj1 calculateWeatherImpact_clearDayLightWind); simpl; auto.
Defined.

(** X15.  A wind speed of exactly 0 makes [calculateWeatherImpact] return the
    neutral impact (factor 1, class D) although the record is complete, while
    any wind speed strictly between 0 and 2.5 m/s on a clear night without
    precipitation gives class F and the multiplier 0.8 * 0.6. *)
Theorem calculateWeatherImpact_calm_air (weatherData : WeatherData.t) (w cc : R) :
  WeatherData.cloudCover weatherData = Some (Fin cc) ->
  WeatherData.isDay weatherData = Some (Fin 0) ->
  WeatherData.precipitation weatherData = None ->
  (cc < 50)%R ->
  (WeatherData.windSpeed weatherData = Some (Fin 0) ->
   calculateWeatherImpact weatherData = neutralWeatherImpact)
  /\ (WeatherData.windSpeed weatherData = Some (Fin w) -> (0 < w < 2.5)%R ->
      calculateWeatherImpact weatherData
      = {| weatherImpact.windFactor := Fin 0.8;
           weatherImpact.stabilityClass := "F";
           weatherImpact.dispersionMultiplier := Fin (0.8 * 0.6 * 1.0) |}).
Proof.
  intros Hcc Hday Hprec Hclear; unfold calculateWeatherImpact.
  rewrite Hcc, Hday, Hprec; split.
  - intros ->; cbn [truthyValue]; unfold truthy; rewrite Reqb_refl; reflexivity.
  - intros -> Hw; cbn [truthyValue]; rewrite truthy_Fin_pos by lra.
    cbv zeta; unfold calculateStabilityClass; cbv zeta.
    repeat (fin_step || decide_one);
      cbn [charAt0 String.eqb Ascii.eqb Bool.eqb];
      repeat (fin_step || decide_one); reflexivity.
Qed.

Lemma calculateWeatherImpact_calm_air_witness :
  calculateWeatherImpact clearNightLightWind
  = {| weatherImpact.windFactor := Fin 0.8;
       weatherImpact.stabilityClass := "F";
       weatherImpact.dispersionMultiplier := Fin (0.8 * 0.6 * 1.0) |}.
Proof.
  apply (calculateWeatherImpact_calm_air clearNightLightWind 1.5 10);
    [reflexivity | reflexivity | reflexivity | lra | reflexivity | lra].
Defined.

(** X16.  Between two complete weather records the wind factor does not
    decrease when the (positive) wind speed rises. *)
Theorem calculateWeatherImpact_windFactor_monotone
  (d1 d2 : WeatherData.t) (w1 w2 : R) :
  WeatherData.windSpeed d1 = Some (Fin w1) ->
  WeatherData.windSpeed d2 = Some (Fin w2) ->
  (0 < w1 <= w2)%R ->
  WeatherData.cloudCover d1 <> None -> WeatherData.isDay d1 <> None ->
  WeatherData.cloudCover d2 <> None -> WeatherData.isDay d2 <> None ->
  (weatherImpact.windFactor (calculateWeatherImpact d1)
   <=? weatherImpact.windFactor (calculateWeatherImpact d2)) = true.
Proof.
  intros H1 H2 Hw Hc1 Hd1 Hc2 Hd2; unfold calculateWeatherImpact.
  rewrite H1, H2; cbn [truthyValue]; rewrite !truthy_Fin_pos by lra.
  destruct (WeatherData.cloudCover d1); [| congruence].
  destruct (WeatherData.isDay d1); [| congruence].
  destruct (WeatherData.cloudCover d2); [| congruence].
  destruct (WeatherData.isDay d2); [| congruence].
  cbv zeta; cbn [weatherImpact.windFactor].
  repeat (fin_step || decide_one); reflexivity.
Qed.

Lemma calculateWeatherImpact_windFactor_monotone_witness :
  (weatherImpact.windFactor (calculateWeatherImpact clearNightLightWind)
   <=? weatherImpact.windFactor (calculateWeatherImpact clearDayLightWind)) = true.
Proof.
  apply (calculateWeatherImpact_windFactor_monotone
           clearNightLightWind clearDayLightWind 1.5 2.5);
    [reflexivity | reflexivity | lra | discriminate | discriminate
     | discriminate | discriminate].
Defined.

(** ** Health impact *)

Section HealthEntry.

Variable chemical : string.
Variable c : ChemicalProperties.
Hypothesis Hget : get (toLowerCase chemical) = Some c.
Hypothesis Hreg : regular c.

Lemma calculateHealthImpact_monotone_entry (c1 c2 : R) (t1 t2 : num) :
  (c1 <= c2)%R ->
  (healthRank (fst (calculateHealthImpact (Fin c1) t1 chemical))
   <= healthRank (fst (calculateHealthImpact (Fin c2) t2 chemical)))%nat.
Proof.
  intros Hle.
  destruct Hreg as (mw & bp & vp & sg & l & u & a1 & a2 & a3 & e & rh & bl & Hmw & _ & _ &
                    _ & _ & _ & Ha1 & Ha2 & Ha3 & _ & _ & _ & Hpos & _).
  assert (Hq : (c1 * 24.45 / mw <= c2 * 24.45 / mw)%R).
  { apply Rmult_le_compat_r; [left; apply Rinv_0_lt_compat; lra | lra]. }
  unfold calculateHealthImpact; rewrite Hget; cbv zeta.
  rewrite Hmw, Ha1, Ha2, Ha3, !truthy_Fin.
  fin_eval.
  repeat decide_one; cbn; repeat constructor.
Qed.

End HealthEntry.

(** X17.  For a chemical of the table the health severity depends on the
    concentration alone, not on the exposure time, and does not decrease when
    the concentration rises. *)
Theorem calculateHealthImpact_monotone
  (chemical : string) (c : ChemicalProperties) (c1 c2 : R) (t1 t2 : num) :
  ownProperty (toLowerCase chemical) chemicalDatabase = Some c ->
  (c1 <= c2)%R ->
  (healthRank (fst (calculateHealthImpact (Fin c1) t1 chemical))
   <= healthRank (fst (calculateHealthImpact (Fin c2) t2 chemical)))%nat.
Proof.
  intros Hown.
  apply (calculateHealthImpact_monotone_entry chemical c (get_own _ _ Hown)
           (ownProperty_regular _ _ Hown)).
Qed.

Lemma calculateHealthImpact_monotone_witness :
  (healthRank (fst (calculateHealthImpact (Fin 5) (Fin 600) "chlorine"))
   <= healthRank (fst (calculateHealthImpact (Fin 50) (Fin 1) "chlorine")))%nat.
Proof.
  apply (calculateHealthImpact_monotone "chlorine" chlorine 5 50 (Fin 600) (Fin 1));
    [reflexivity | lra].
Defined.

(** Chlorine at 1000 mg/m3 is about 345 ppm, above its AEGL-3 of 20 ppm. *)
Lemma calculateHealthImpact_chlorine_fatal (exposureTime : num) :
  fst (calculateHealthImpact (Fin 1000) exposureTime "chlorine") = fatal.
Proof.
  unfold calculateHealthImpact.
  change (get (toLowerCase "chlorine")) with (Some chlorine); cbv zeta.
  cbn [molecularWeight aegl1 aegl2 aegl3 chlorine].
  rewrite ?truthy_Fin.
  repeat (fin_step || decide_one); reflexivity.
Qed.

(** X18.  For a chemical of the table and the default background level and
    threshold multiplier: whenever [calculateHealthImpact] rates a
    concentration above low, [detectLeakage] reports the same concentration
    as a leak, with a severity level at least one step above None for
    medium, two for high and three for fatal. *)
Theorem health_impact_implies_leak
  (chemical : string) (c : ChemicalProperties) (v : R) (exposureTime : num) :
  ownProperty (toLowerCase chemical) chemicalDatabase = Some c ->
  let h := fst (calculateHealthImpact (Fin v) exposureTime chemical) in
  let r := detectLeakage chemical (Fin v) None None in
  h <> low ->
  isLeaking r = true /\ (healthRank h + 1 <= riskRank (severityLevel r))%nat.
Proof.
  intros Hown; pose proof (get_own _ _ Hown) as Hget.
  apply ownProperty_cases in Hown; simpl in Hown.
  unfold calculateHealthImpact, detectLeakage, convertConcentrationUnit.
  rewrite Hget; cbv zeta.
  cbn [isLeaking severityLevel ConcentrationUnit_eqb defaultTo fst].
  repeat (destruct Hown as [<- | Hown]; [
    cbn [molecularWeight aegl1 aegl2 aegl3 chlorine ammonia hydrogenSulfide
         sulfurDioxide methane carbonMonoxide benzene ethyleneOxide
         hydrogenCyanide phosgene];
    rewrite ?truthy_Fin, ?nor_Fin_if;
    repeat (fin_step || (rewrite Rmax_right by lra) || decide_one);
    cbn [fst healthRank riskRank];
    intros Hlow; try (exfalso; apply Hlow; reflexivity);
    (split; [reflexivity | repeat constructor]) |]).
  contradiction.
Qed.

Lemma health_impact_implies_leak_witness :
  let h := fst (calculateHealthImpact (Fin 1000) (Fin 30) "chlorine") in
  let r := detectLeakage "chlorine" (Fin 1000) None None in
  isLeaking r = true /\ (healthRank h + 1 <= riskRank (severityLevel r))%nat.
Proof.
  apply (health_impact_implies_leak "chlorine" chlorine 1000 (Fin 30));
    [reflexivity |].
  rewrite calculateHealthImpact_chlorine_fatal; discriminate.
Defined.

(** ** Dispersion coefficients *)

Lemma classCoefficients_cases (A B C D E F : num * num) (s : string) :
  isObjectPrototypeKey s = false ->
  classCoefficients A B C D E F s
  = if String.eqb s "A" then A else if String.eqb s "B" then B
    else if String.eqb s "C" then C else if String.eqb s "D" then D
    else if String.eqb s "E" then E else if String.eqb s "F" then F else D.
Proof. intros H; unfold classCoefficients; rewrite H; reflexivity. Qed.

Lemma calculateSigmaY_value (d : R) (s : string) :
  isObjectPrototypeKey s = false -> (0 <= d)%R ->
  calculateSigmaY (Fin d) s
  = Fin (sigmaYCoefficient s * d * Rpower (1 + 0.0001 * d) (-0.5)).
Proof.
  intros Hs Hd; unfold calculateSigmaY, sigmaYCoefficient; cbv zeta.
  rewrite classCoefficients_cases by exact Hs.
  destruct (String.eqb s "A"), (String.eqb s "B"), (String.eqb s "C"),
    (String.eqb s "D"), (String.eqb s "E"), (String.eqb s "F"); cbn [fst snd];
    fin_eval; rewrite npow_Fin_pos by lra; fin_eval; reflexivity.
Qed.

Lemma calculateSigmaZ_value (d : R) (s : string) :
  isObjectPrototypeKey s = false -> (0 <= d)%R ->
  calculateSigmaZ (Fin d) s
  = Fin (fst (sigmaZCoefficients s) * d
         * Rpower (1 + snd (sigmaZCoefficients s) * d) (-0.5)).
Proof.
  intros Hs Hd; unfold calculateSigmaZ, sigmaZCoefficients; cbv zeta.
  rewrite classCoefficients_cases by exact Hs.
  destruct (String.eqb s "A"), (String.eqb s "B"), (String.eqb s "C"),
    (String.eqb s "D"), (String.eqb s "E"), (String.eqb s "F"); cbn [fst snd];
    fin_eval; rewrite npow_Fin_pos by nra; fin_eval; reflexivity.
Qed.

(** X19.  At every positive distance both dispersion coefficients are
    positive and strictly decrease from each stability class to the next one,
    A to F. *)
Theorem dispersion_coefficients_ordered (d : R) (s1 s2 : string) :
  (0 < d)%R -> In (s1, s2) adjacentClasses ->
  (calculateSigmaY (Fin d) s2 <? calculateSigmaY (Fin d) s1) = true
  /\ (calculateSigmaZ (Fin d) s2 <? calculateSigmaZ (Fin d) s1) = true
  /\ (Fin 0 <? calculateSigmaY (Fin d) s2) = true
  /\ (Fin 0 <? calculateSigmaZ (Fin d) s2) = true.
Proof.
  intros Hd Hin.
  unfold adjacentClasses in Hin; simpl in Hin.
  repeat (destruct Hin as [Hin | Hin];
          [injection Hin as <- <-;
           rewrite !calculateSigmaY_value, !calculateSigmaZ_value
             by (reflexivity || lra);
           unfold sigmaYCoefficient, sigmaZCoefficients;
           cbn [String.eqb Ascii.eqb Bool.eqb fst snd];
           rewrite !nlt_Fin;
           repeat split; apply Rltb_true;
           match goal with
           | |- (?c2 * d * Rpower ?x2 ?y < ?c1 * d * Rpower ?x1 ?y)%R =>
               pose proof (Rpower_pos x1 y);
               pose proof (Rpower_pos x2 y);
               assert (Rpower x2 y <= Rpower x1 y)%R
                 by (apply Rpower_neg_antitone; lra);
               nra
           | |- (0 < ?c * d * Rpower ?x ?y)%R =>
               pose proof (Rpower_pos x y); nra
           end |]).
  contradiction.
Qed.

Lemma dispersion_coefficients_ordered_witness :
  (calculateSigmaY (Fin 1500) "D" <? calculateSigmaY (Fin 1500) "C") = true
  /\ (calculateSigmaZ (Fin 1500) "D" <? calculateSigmaZ (Fin 1500) "C") = true
  /\ (Fin 0 <? calculateSigmaY (Fin 1500) "D") = true
  /\ (Fin 0 <? calculateSigmaZ (Fin 1500) "D") = true.
Proof.
  apply (dispersion_coefficients_ordered 1500 "C" "D"); [lra |].
  unfold adjacentClasses; simpl; tauto.
Defined.

(** ** Leak detection parameters of a scenario *)

Lemma effectiveSensorCount_nonneg (o : option num) :
  (o = None \/ exists n : R, o = Some (Fin n) /\ (0 <= n)%R) ->
  exists s : R, effectiveSensorCount o = Fin s /\ (0 < s)%R.
Proof.
  intros [-> | (n & -> & Hn)]; unfold effectiveSensorCount, optionalOr.
  - exists 5%R; split; [reflexivity | lra].
  - rewrite nor_Fin_if; destruct (Reqb n 0) eqn:E; reflect_decisions.
    + exists 5%R; split; [reflexivity | lra].
    + exists n; split; [reflexivity | lra].
Qed.

Lemma clamped_probability (A B m : R) :
  (0 <= A <= 1)%R -> (0 <= B <= 1)%R -> (0 < m <= 1)%R ->
  (0 <= Rmax 0 (Rmin 1 (0.75 * A * B * m)) <= 0.75 * m)%R
  /\ (B = 0%R -> Rmax 0 (Rmin 1 (0.75 * A * B * m)) = 0%R).
Proof.
  intros HA HB Hm.
  assert (HAB : (0 <= A * B <= 1)%R) by nra.
  assert (Hx : (0 <= 0.75 * A * B * m <= 0.75 * m)%R) by nra.
  rewrite Rmin_right by lra; rewrite Rmax_right by lra.
  split; [exact Hx | intros ->; ring].
Qed.

Lemma detectionProbability_bounds_aux (params : ModelParameters) (random r : R) :
  releaseRate params = Fin r -> (0 <= r)%R ->
  (sensorCount params = None
   \/ exists n : R, sensorCount params = Some (Fin n) /\ (0 <= n)%R) ->
  exists q : R,
    Detailed.detectionProbability (calculateDetailedDispersion params random) = Fin q
    /\ (0 <= q <= 0.75)%R
    /\ (r = 0%R -> q = 0%R)
    /\ (monitoringMode params = Some batch -> (q <= 0.525)%R).
Proof.
  intros Hr Hr0 Hsc.
  destruct (effectiveSensorCount_nonneg _ Hsc) as (s & Hs & Hspos).
  unfold calculateDetailedDispersion, calculateLeakDetection; cbv zeta.
  cbn [Detailed.detectionProbability LeakDetection.detectionProbability].
  fold (effectiveSensorCount (sensorCount params)); rewrite Hs, Hr.
  assert (HA : (0 <= Rmin 1 (s / 10) <= 1)%R).
  { split; [apply Rmin_glb; lra | apply Rmin_l]. }
  assert (HB : (0 <= Rmin 1 (r / 50) <= 1)%R).
  { split; [apply Rmin_glb; lra | apply Rmin_l]. }
  assert (HB0 : r = 0%R -> Rmin 1 (r / 50) = 0%R).
  { intros ->; rewrite Rmin_right by lra; lra. }
  destruct (monitoringMode params) as [[|]|]; cbn [MonitoringMode_eqb]; fin_eval;
    (eexists; split; [reflexivity|]).
  - destruct (clamped_probability _ _ 1.0 HA HB ltac:(lra)) as [Hq Hz].
    split; [lra | split; [intros Hr'; apply Hz, HB0, Hr' | discriminate]].
  - destruct (clamped_probability _ _ 0.7 HA HB ltac:(lra)) as [Hq Hz].
    split; [lra | split; [intros Hr'; apply Hz, HB0, Hr' | intros _; lra]].
  - destruct (clamped_probability _ _ 1.0 HA HB ltac:(lra)) as [Hq Hz].
    split; [lra | split; [intros Hr'; apply Hz, HB0, Hr' | discriminate]].
Qed.

(** X20.  For a finite non-negative release rate and a sensor count that is
    absent or finite and non-negative, the detection probability is a number
    between 0 and 0.75; it is 0 for a release rate of 0, and at most 0.525
    in batch monitoring mode. *)
Theorem detectionProbability_bounds (params : ModelParameters) (random r : R) :
  releaseRate params = Fin r -> (0 <= r)%R ->
  (sensorCount params = None
   \/ exists n : R, sensorCount params = Some (Fin n) /\ (0 <= n)%R) ->
  exists q : R,
    Detailed.detectionProbability (calculateDetailedDispersion params random) = Fin q
    /\ (0 <= q <= 0.75)%R
    /\ (r = 0%R -> q = 0%R)
    /\ (monitoringMode params = Some batch -> (q <= 0.525)%R).
Proof. apply detectionProbability_bounds_aux. Qed.

Lemma detectionProbability_bounds_witness :
  exists q : R,
    Detailed.detectionProbability
      (calculateDetailedDispersion (scenario "chlorine" 25) 0.5) = Fin q
    /\ (0 <= q <= 0.75)%R.
Proof.
  destruct (detectionProbability_bounds (scenario "chlorine" 25) 0.5 25)
    as (q & Hq & Hbound & _); [reflexivity | lra | left; reflexivity |].
  exists q; split; [exact Hq | exact Hbound].
Defined.

(** The chlorine scenario has a detection probability of 0.1875. *)
Lemma detectionProbability_chlorine (random : R) :
  Detailed.detectionProbability
    (calculateDetailedDispersion (scenario "chlorine" 25) random) = Fin 0.1875.
Proof.
  unfold calculateDetailedDispersion, calculateLeakDetection; cbv zeta.
  cbn [Detailed.detectionProbability LeakDetection.detectionProbability
       scenario sensorCount releaseRate monitoringMode optionalOr
       MonitoringMode_eqb].
  fin_eval.
  rewrite (Rmin_right 1 (5 / 10)), (Rmin_right 1 (25 / 50)) by lra.
  rewrite Rmin_right by lra; rewrite Rmax_right by lra.
  f_equal; lra.
Qed.

(** X21.  Under the same conditions, a simulated detection succeeds only if
    the release rate is positive and the detection draw is below 0.75, and
    below 0.42 in batch monitoring mode. *)
Theorem simulateLeakDetection_needs_release
  (params : ModelParameters) (random detectionDraw r : R) :
  releaseRate params = Fin r -> (0 <= r)%R ->
  (sensorCount params = None
   \/ exists n : R, sensorCount params = Some (Fin n) /\ (0 <= n)%R) ->
  (0 <= detectionDraw)%R ->
  simulateLeakDetection params random detectionDraw = true ->
  (0 < r)%R /\ (detectionDraw < 0.75)%R
  /\ (monitoringMode params = Some batch -> (detectionDraw < 0.42)%R).
Proof.
  intros Hr Hr0 Hsc Hd.
  destruct (detectionProbability_bounds_aux params random r Hr Hr0 Hsc)
    as (q & Hq & Hbound & Hzero & Hbatch).
  unfold simulateLeakDetection; cbv zeta; rewrite Hq.
  destruct (monitoringMode params) as [[|]|] eqn:Hmode; fin_eval; intros H;
    reflect_decisions;
    assert (Hpos : (0 < r)%R)
      by (destruct (Req_dec r 0) as [E | E]; [specialize (Hzero E); lra | lra]).
  - split; [exact Hpos | split; [lra | discriminate]].
  - specialize (Hbatch eq_refl).
    split; [exact Hpos | split; [lra | intros _; lra]].
  - split; [exact Hpos | split; [lra | discriminate]].
Qed.

Lemma simulateLeakDetection_needs_release_witness :
  simulateLeakDetection (scenario "chlorine" 25) 0.5 0.1 = true
  /\ (0 < 25)%R /\ (0.1 < 0.75)%R.
Proof.
  assert (H : simulateLeakDetection (scenario "chlorine" 25) 0.5 0.1 = true).
  { unfold simulateLeakDetection; cbv zeta; cbn [scenario monitoringMode].
    rewrite detectionProbability_chlorine, nlt_Fin; apply Rltb_true; lra. }
  split; [exact H |].
  destruct (simulateLeakDetection_needs_release (scenario "chlorine" 25) 0.5 0.1 25)
    as (H1 & H2 & _);
    [reflexivity | lra | left; reflexivity | lra | exact H |].
  split; [exact H1 | exact H2].
Defined.

Lemma timeToDetection_cases (params : ModelParameters) (random : R) :
  let t := Detailed.timeToDetection (calculateDetailedDispersion params random) in
  t = NaN \/ t = PInf \/ exists w : R, t = Fin w /\ (1 <= w)%R.
Proof.
  unfold calculateDetailedDispersion, calculateLeakDetection; cbv zeta.
  cbn [Detailed.timeToDetection LeakDetection.timeToDetection].
  apply nmax_Fin_l_cases.
Qed.

(** ** Protective actions *)

(** X22.  The result of [evaluateProtectiveActions] does not depend on the
    number [Math.random()] returns inside the dispersion calculation it
    runs. *)
Theorem evaluateProtectiveActions_random_independent
  (params : ModelParameters) (evacuationTime : num) (shelterType : ShelterType)
  (random1 random2 : R) :
  evaluateProtectiveActions params evacuationTime shelterType random1
  = evaluateProtectiveActions params evacuationTime shelterType random2.
Proof. reflexivity. Qed.

Ltac absurd_rating H := exfalso; injection H as H; lra.

(** X23.  A full evacuation is rated 95 % effective only if the evacuation
    time is below 9 minutes: at least one of the 10 minutes before
    significant exposure goes to detection. *)
Theorem full_evacuation_needs_nine_minutes
  (params : ModelParameters) (evacuationTime : num) (random : R) :
  effectivenessPercent
    (evaluateProtectiveActions params evacuationTime fullEvacuation random) = Fin 95 ->
  (evacuationTime <? Fin 9) = true.
Proof.
  unfold evaluateProtectiveActions; cbv zeta.
  destruct (timeToDetection_cases params random) as [-> | [-> | (w & -> & Hw)]].
  - cbn [nsub nadd nopp]; unfold ngt; rewrite !nlt_NaN_r; cbn.
    intros H; absurd_rating H.
  - change (Fin 10 - PInf) with NInf.
    assert (E : forall x, (NInf >? x) = false) by (intros x; destruct x; reflexivity).
    rewrite !E; cbn; intros H; absurd_rating H.
  - fin_eval.
    destruct evacuationTime as [e| | |].
    + repeat (fin_step || decide_one); cbn; intros H;
        first [reflexivity | apply Rltb_true; lra | absurd_rating H].
    + rewrite nmul_PInf_Fin by lra.
      change (Fin (10 - w) >? PInf) with false; cbn; intros H; absurd_rating H.
    + intros _; reflexivity.
    + rewrite nmul_NaN_l, !ngt_NaN_r; cbn; intros H; absurd_rating H.
Qed.

(** The chlorine scenario is detected within the minimal minute. *)
Lemma timeToDetection_chlorine (random : R) :
  Detailed.timeToDetection
    (calculateDetailedDispersion (scenario "chlorine" 25) random) = Fin 1.
Proof.
  unfold calculateDetailedDispersion, calculateLeakDetection; cbv zeta.
  cbn [Detailed.timeToDetection LeakDetection.timeToDetection
       scenario sensorThreshold releaseRate monitoringMode optionalOr
       MonitoringMode_eqb].
  rewrite (nmax_Fin 0.1 25), (Rmax_right 0.1 25) by lra.
  fin_eval.
  rewrite Rmax_left by lra; reflexivity.
Qed.

Lemma full_evacuation_needs_nine_minutes_witness :
  effectivenessPercent
    (evaluateProtectiveActions (scenario "chlorine" 25) (Fin 5) fullEvacuation 0.5)
  = Fin 95
  /\ (Fin 5 <? Fin 9) = true.
Proof.
  assert (H : effectivenessPercent
                (evaluateProtectiveActions (scenario "chlorine" 25) (Fin 5)
                   fullEvacuation 0.5) = Fin 95).
  { unfold evaluateProtectiveActions; cbv zeta.
    rewrite timeToDetection_chlorine.
    repeat (fin_step || decide_one); reflexivity. }
  split; [exact H |].
  apply (full_evacuation_needs_nine_minutes (scenario "chlorine" 25) (Fin 5) 0.5 H).
Defined.

(** ** Sensor locations *)

Lemma forWhile_length {A : Type} (cond : nat -> bool) (body : nat -> A)
  (indices : list nat) :
  (length (forWhile cond body indices) <= length indices)%nat.
Proof.
  induction indices as [| i rest IH]; simpl; [lia|].
  destruct (cond i); simpl; lia.
Qed.

Lemma forWhile_all {A : Type} (cond : nat -> bool) (body : nat -> A)
  (indices : list nat) :
  forallb cond indices = true ->
  forWhile cond body indices = map body indices.
Proof.
  induction indices as [| i rest IH]; simpl; [reflexivity|].
  intros H; apply andb_prop in H as [Hi Hrest].
  rewrite Hi, IH by exact Hrest; reflexivity.
Qed.

(** X24.  The recommended sensor locations always start with a fixed sensor
    at the source and number between 1 and 5: 5 when no sensor count is
    given, when it is 0, or when it is 5 or more, and 1 when it is at most 1
    and not 0, negative counts included. *)
Theorem recommendedSensorLocations_count (params : ModelParameters) (random : R) :
  let sensors :=
    Detailed.recommendedSensorLocations (calculateDetailedDispersion params random) in
  (1 <= length sensors <= 5)%nat
  /\ nth_error sensors 0
     = Some {| Sensor.lat := fst (sourceLocation params);
               Sensor.lng := snd (sourceLocation params);
               Sensor.type := "fixed" |}
  /\ (sensorCount params = None -> length sensors = 5%nat)
  /\ (sensorCount params = Some (Fin 0) -> length sensors = 5%nat)
  /\ (forall n : R, sensorCount params = Some (Fin n) -> (5 <= n)%R ->
      length sensors = 5%nat)
  /\ (forall n : R, sensorCount params = Some (Fin n) -> (n <= 1)%R -> n <> 0%R ->
      length sensors = 1%nat).
Proof.
  cbv zeta; unfold calculateDetailedDispersion; cbv zeta.
  cbn [Detailed.recommendedSensorLocations].
  unfold calculateLeakDetection; cbv zeta.
  cbn [LeakDetection.recommendedSensorLocations].
  split; [|split; [reflexivity|]].
  - cbn [length].
    match goal with
    | |- context [forWhile ?c ?b ?l] => pose proof (forWhile_length c b l) as H
    end.
    cbn [length] in H; lia.
  - assert (Hfull : forall c : num,
              (Fin 5 <=? c) = true ->
              forallb (fun i => natNum i <? nmin (Fin 5) c) [1; 2; 3; 4]%nat = true).
    { intros c Hc; destruct c as [v| | |]; try discriminate Hc.
      - rewrite nle_Fin in Hc; apply Rleb_true in Hc.
        cbn [forallb]; unfold natNum; cbn [INR]; fin_eval.
        rewrite Rmin_left by lra.
        repeat (rewrite (proj2 (Rltb_true _ _)) by lra); reflexivity.
      - change (nmin (Fin 5) PInf) with (Fin 5).
        cbn [forallb]; unfold natNum; cbn [INR]; fin_eval.
        repeat (rewrite (proj2 (Rltb_true _ _)) by lra); reflexivity. }
    repeat split.
    + intros Hn; rewrite Hn; cbn [optionalOr length].
      rewrite forWhile_all; [reflexivity|].
      apply Hfull; rewrite nle_Fin; apply Rleb_true; lra.
    + intros Hn; rewrite Hn; cbn [optionalOr length].
      rewrite nor_zero.
      rewrite forWhile_all; [reflexivity|].
      apply Hfull; rewrite nle_Fin; apply Rleb_true; lra.
    + intros n Hn Hle; rewrite Hn; cbn [optionalOr length].
      rewrite nor_Fin by lra.
      rewrite forWhile_all; [reflexivity|].
      apply Hfull; rewrite nle_Fin; apply Rleb_true; lra.
    + intros n Hn Hle Hne; rewrite Hn; cbn [optionalOr length].
      rewrite nor_Fin by exact Hne.
      cbn [forWhile]; unfold natNum; cbn [INR]; fin_eval.
      assert (E : Rltb 1 (Rmin 5 n) = false).
      { apply Rltb_false; rewrite Rmin_right by lra; lra. }
      rewrite E; reflexivity.
Qed.

Lemma recommendedSensorLocations_count_witness :
  length (Detailed.recommendedSensorLocations
            (calculateDetailedDispersion (scenario "chlorine" 25) 0.5)) = 5%nat.
Proof.
  destruct (recommendedSensorLocations_count (scenario "chlorine" 25) 0.5)
    as (_ & _ & H & _).
  apply H; reflexivity.
Defined.

(** ** Zone areas and populations *)





(** ** Still air *)



(** ** Concentration profile *)

Lemma decayParameters_pos (s : string) :
  (0 < fst (decayParameters s) /\ 0 < snd (decayParameters s))%R.
Proof.
  unfold decayParameters.
  repeat match goal with |- context [if ?b then _ else _] => destruct b end;
    cbn [fst snd]; lra.
Qed.

Lemma profilePower_monotone (s : string) (i : nat) :
  (0 <= profilePower s i <= profilePower s (S i))%R.
Proof.
  pose proof (decayParameters_pos s) as [_ Hn].
  destruct i as [| i].
  - cbn [profilePower]; split; [lra | left; apply Rpower_pos].
  - cbn [profilePower]; split; [left; apply Rpower_pos|].
    apply Rle_Rpower_l; [lra|].
    pose proof (pos_INR i); rewrite !S_INR; lra.
Qed.

Lemma profile_point (params : ModelParameters) (C D w : R) (i : nat) :
  windSpeed params = Fin w -> (0 < D)%R ->
  nth_error (generateConcentrationProfile params (Fin C) (Fin D)) i
  = if Nat.ltb i 21
    then Some {| distance := parseFloatToFixed 2 (Fin (D * INR i / 20));
                 concentration :=
                   parseFloatToFixed 3
                     (Fin (C * exp (- profileDecay (stabilityClass params) w
                                    * profilePower (stabilityClass params) i))) |}
    else None.
Proof.
  intros Hw HD; unfold generateConcentrationProfile; cbv zeta.
  destruct (Nat.ltb i 21) eqn:Hi.
  - apply Nat.ltb_lt in Hi.
    rewrite nth_error_map, nth_error_seq.
    rewrite (proj2 (Nat.ltb_lt _ _) Hi); cbn [option_map Nat.add].
    rewrite Hw; unfold natNum.
    pose proof (decayParameters_pos (stabilityClass params)) as [Hk Hn].
    assert (Ekn :
      (if String.eqb (stabilityClass params) "A" then (Fin 4.0, Fin 1.5)
       else if String.eqb (stabilityClass params) "B" then (Fin 3.5, Fin 1.6)
       else if String.eqb (stabilityClass params) "C" then (Fin 3.0, Fin 1.7)
       else if String.eqb (stabilityClass params) "D" then (Fin 2.5, Fin 1.8)
       else if String.eqb (stabilityClass params) "E" then (Fin 2.0, Fin 1.9)
       else if String.eqb (stabilityClass params) "F" then (Fin 1.5, Fin 2.0)
       else (Fin 2.5, Fin 1.8))
      = (Fin (fst (decayParameters (stabilityClass params))),
         Fin (snd (decayParameters (stabilityClass params))))).
    { unfold decayParameters.
      repeat match goal with |- context [if ?b then _ else _] => destruct b end;
        reflexivity. }
    rewrite Ekn; cbn [fst snd]; clear Ekn.
    fin_eval.
    change (nopp (Fin ?a)) with (Fin (- a)).
    f_equal; f_equal.
    destruct i as [| i].
    + cbn [INR profilePower].
      replace (D * 0 / 20 / D)%R with 0%R by (field; lra).
      unfold npow.
      assert (E1 : Reqb (snd (decayParameters (stabilityClass params))) 0 = false)
        by (apply Reqb_false; lra).
      assert (E2 : Rltb 0 (snd (decayParameters (stabilityClass params))) = true)
        by (apply Rltb_true; lra).
      rewrite E1, Reqb_refl, E2; fin_eval; reflexivity.
    + replace (D * INR (S i) / 20 / D)%R with (INR (S i) / 20)%R by (field; lra).
      rewrite npow_Fin_pos;
        [| pose proof (pos_INR i); rewrite S_INR; lra | lra].
      fin_eval; reflexivity.
  - apply Nat.ltb_ge in Hi.
    apply nth_error_None; rewrite length_map, length_seq; exact Hi.
Qed.

(** X27.  For a finite wind speed, a non-negative source concentration and a
    positive maximum distance, the concentration profile has 21 points, the
    first at distance 0 with the source concentration rounded to three
    decimals; from each point to the next the distance does not decrease and
    the concentration, which is never negative, does not increase. *)
Theorem concentrationProfile_monotone
  (params : ModelParameters) (C D w : R) (i : nat) :
  windSpeed params = Fin w -> (0 <= C)%R -> (0 < D)%R -> (i < 20)%nat ->
  let profile := generateConcentrationProfile params (Fin C) (Fin D) in
  length profile = 21%nat
  /\ nth_error profile 0
     = Some {| distance := Fin 0; concentration := parseFloatToFixed 3 (Fin C) |}
  /\ exists p q : Zone,
       nth_error profile i = Some p /\ nth_error profile (S i) = Some q
       /\ (distance p <=? distance q) = true
       /\ (concentration q <=? concentration p) = true
       /\ (Fin 0 <=? concentration q) = true.
Proof.
  intros Hw HC HD Hi; cbv zeta.
  split; [unfold generateConcentrationProfile; cbv zeta;
          rewrite length_map, length_seq; reflexivity|].
  split.
  - rewrite (profile_point params C D w 0 Hw HD).
    cbn [Nat.ltb Nat.leb INR profilePower].
    replace (D * 0 / 20)%R with 0%R by lra.
    rewrite parseFloatToFixed_zero, Rmult_0_r, exp_0, Rmult_1_r; reflexivity.
  - rewrite (profile_point params C D w i Hw HD),
            (profile_point params C D w (S i) Hw HD).
    assert (E1 : Nat.ltb i 21 = true) by (apply Nat.ltb_lt; lia).
    assert (E2 : Nat.ltb (S i) 21 = true) by (apply Nat.ltb_lt; lia).
    rewrite E1, E2.
    do 2 eexists; split; [reflexivity | split; [reflexivity|]].
    cbn [distance concentration].
    pose proof (profilePower_monotone (stabilityClass params) i) as [Hp0 Hp].
    pose proof (decayParameters_pos (stabilityClass params)) as [Hk _].
    assert (Hdecay : (0 < profileDecay (stabilityClass params) w)%R).
    { unfold profileDecay.
      assert (1 <= Rmin (Rmax w 1) 10)%R
        by (apply Rmin_glb; [apply Rmax_r | lra]).
      nra. }
    set (k := profileDecay (stabilityClass params) w) in *.
    destruct (parseFloatToFixed_monotone 2 (D * INR i / 20) (D * INR (S i) / 20))
      as (d1 & d2 & -> & -> & Hd).
    { pose proof (pos_INR i); rewrite S_INR; split; nra. }
    destruct (parseFloatToFixed_monotone 3
                (C * exp (- k * profilePower (stabilityClass params) (S i)))
                (C * exp (- k * profilePower (stabilityClass params) i)))
      as (c2 & c1 & -> & -> & Hc).
    { split.
      - apply Rmult_le_pos; [exact HC | left; apply exp_pos].
      - apply Rmult_le_compat_l; [exact HC|].
        destruct (Req_dec (profilePower (stabilityClass params) i)
                          (profilePower (stabilityClass params) (S i))) as [-> | Hne];
          [lra|].
        left; apply exp_increasing; nra. }
    rewrite !nle_Fin; repeat split; apply Rleb_true; lra.
Qed.

Lemma concentrationProfile_monotone_witness :
  let profile := generateConcentrationProfile (scenario "chlorine" 25) (Fin 20) (Fin 6) in
  length profile = 21%nat
  /\ nth_error profile 0
     = Some {| distance := Fin 0; concentration := parseFloatToFixed 3 (Fin 20) |}
  /\ exists p q : Zone,
       nth_error profile 3 = Some p /\ nth_error profile 4 = Some q
       /\ (distance p <=? distance q) = true
       /\ (concentration q <=? concentration p) = true
       /\ (Fin 0 <=? concentration q) = true.
Proof.
  apply (concentrationProfile_monotone (scenario "chlorine" 25) 20 6 4 3);
    [reflexivity | lra | lra | repeat constructor].
Defined.

(** ** Risk levels *)

(** X28.  [raiseRiskLevel] never lowers a level, preserves the order of the
    levels, and leaves exactly Extreme unchanged. *)
Theorem raiseRiskLevel_monotone (l1 l2 : RiskLevel) :
  RiskLevel_le l1 (raiseRiskLevel l1)
  /\ (RiskLevel_le l1 l2 -> RiskLevel_le (raiseRiskLevel l1) (raiseRiskLevel l2))
  /\ (raiseRiskLevel l1 = l1 <-> l1 = Extreme).
Proof.
  unfold RiskLevel_le; repeat split; destruct l1, l2; simpl; intros;
    try lia; try congruence.
Qed.

Lemma raiseRiskLevel_monotone_witness :
  RiskLevel_le (raiseRiskLevel Low) (raiseRiskLevel High).
Proof.
  apply (raiseRiskLevel_monotone Low High).
  unfold RiskLevel_le; simpl; repeat constructor.
Defined.
